(** * NFCShell: command framing, response unwrapping and the [run] dispatcher

    A shallow embedding of [main.py]: the two wrapping helpers
    ([PN532.in_communicate_thru_command], [ACR122.direct_transmit_command]),
    [ACR122.transmit_raw_command], [SmartCard.connect_to_chip] and
    [NfcShell.do_run].

    Python lists of integers are [list Z] (Python integers are unbounded,
    so nothing wraps around).  The card reader, the [print] calls and the
    logger are effects: every function runs in a small monad that threads
    the state of the outside world, collects the calls it makes as a
    trace of events and may end in a raised exception. *)

From Stdlib Require Import String Ascii List ZArith Bool Lia.
Import ListNotations.
Open Scope Z_scope.
Open Scope list_scope.

(** ** Python values the code distinguishes *)

(** Exception classes, as far as the [except] clauses of the program tell
    them apart.  [RuntimeError] stands for the class and its subclasses,
    [Exception] for every other subclass of Python's [Exception] (the
    string is the class name or message), [BaseException] for what is
    outside [Exception] ([KeyboardInterrupt], [SystemExit]). *)
Inductive exn : Type :=
| RuntimeError
| CardRequestTimeoutException
| Exception (msg : string)
| BaseException.

(** [except RuntimeError] *)
Definition is_RuntimeError (e : exn) : bool :=
  match e with RuntimeError => true | _ => false end.

(** [except CardRequestTimeoutException] *)
Definition is_CardRequestTimeoutException (e : exn) : bool :=
  match e with CardRequestTimeoutException => true | _ => false end.

(** [except Exception] *)
Definition is_Exception (e : exn) : bool :=
  match e with BaseException => false | _ => true end.

Inductive result (A : Type) : Type :=
| Ret (a : A)
| Raise (e : exn).
Arguments Ret {A} a.
Arguments Raise {A} e.

(** The [connection] argument of [transmit_raw_command]: [None] (the
    default), [False] (what [connect_to_chip] returns on a timeout) or a
    connection object. *)
Inductive connection_value (Conn : Type) : Type :=
| PyNone
| PyFalse
| Connection (c : Conn).
Arguments PyNone {Conn}.
Arguments PyFalse {Conn}.
Arguments Connection {Conn} c.

(** ** Events *)

(** Messages handed to [_logger.debug]. *)
Inductive debug_msg : Type :=
| Entering (function : string)
| ConnectionTimedOut
| Data (data : list Z) (sw1 sw2 : Z).

(** Lines handed to [print]. *)
Inductive line : Type :=
| ChipTimedOut                  (* Chip connection timed out. *)
| TX (command_bytes : list Z)   (* TX: "<hex>"... *)
| RX_HEX                        (* RX: (HEX) *)
| HexString (data : list Z)
| RX_ASCII                      (* RX: (ASCII) *)
| ASCIIString (data : list Z)
| Failed (command_bytes : list Z).  (* "<hex>" failed. *)

Inductive event : Type :=
| LogDebug (m : debug_msg)         (* _logger.debug *)
| LogError (command_bytes : list Z)  (* _logger.error, with exc_info *)
| Output (l : line)
| WaitForCard (timeout : Z)     (* CardRequest(...).waitforcard() *)
| Connect                       (* connection.connect() *)
| Transmit (frame : list Z).    (* connection.transmit(frame) *)

(** ** The monad *)

Record run (W A : Type) : Type := Run {
  outcome : result A;
  world : W;
  trace : list event
}.
Arguments Run {W A}.
Arguments outcome {W A}.
Arguments world {W A}.
Arguments trace {W A}.

Definition M (W A : Type) : Type := W -> run W A.

Definition ret {W A} (a : A) : M W A := fun w => Run (Ret a) w [].

Definition raise {W A} (e : exn) : M W A := fun w => Run (Raise e) w [].

Definition bind {W A B} (m : M W A) (f : A -> M W B) : M W B :=
  fun w =>
    let r := m w in
    match outcome r with
    | Ret a =>
        let r' := f a (world r) in
        Run (outcome r') (world r') (trace r ++ trace r')
    | Raise e => Run (Raise e) (world r) (trace r)
    end.

Definition emit {W} (e : event) : M W unit := fun w => Run (Ret tt) w [e].

(** [try: body / except <class>: handler]: the handler runs when the
    body raises an exception of the class; other exceptions pass. *)
Definition try_except {W A} (body : M W A) (class : exn -> bool)
    (handler : exn -> M W A) : M W A :=
  fun w =>
    let r := body w in
    match outcome r with
    | Ret a => r
    | Raise e =>
        if class e then
          let r' := handler e (world r) in
          Run (outcome r') (world r') (trace r ++ trace r')
        else r
    end.

(** A call into the outside world: the call is recorded, then the world
    answers. *)
Definition call {W A} (e : event) (f : W -> result A * W) : M W A :=
  fun w => let '(a, w') := f w in Run a w' [e].

Declare Scope py_scope.
Delimit Scope py_scope with py.
Notation "x <- m ;; k" := (bind m (fun x => k))
  (at level 61, m at next level, right associativity) : py_scope.
Notation "m ;; k" := (bind m (fun _ => k))
  (at level 61, right associativity) : py_scope.
Notation "' pat <- m ;; k" := (bind m (fun x => match x with pat => k end))
  (at level 61, pat pattern, m at next level, right associativity) : py_scope.
Open Scope py_scope.

Definition debug {W} (m : debug_msg) : M W unit := emit (LogDebug m).
Definition print {W} (l : line) : M W unit := emit (Output l).

(** ** The smart card library

    What the program uses of the [smartcard] package, which is not part
    of the repository: waiting for a card, connecting, transmitting one
    frame, and [util.toBytes].  [W] is the state of the outside world,
    [Conn] the connection objects. *)
Class Smartcard (W Conn : Type) : Type := {
  (* CardRequest(timeout=timeout, cardType=card_type)
       .waitforcard().connection *)
  waitforcard : Z -> W -> result Conn * W;
  (* connection.connect() *)
  connect : Conn -> W -> result unit * W;
  (* connection.transmit(frame) *)
  transmit : Conn -> list Z -> W -> result (list Z * Z * Z) * W;
  (* util.toBytes(string) *)
  toBytes : string -> result (list Z)
}.

(** ** Plain list and string helpers of Python *)

(** [==] on two lists of integers *)
Fixpoint list_eqb (l1 l2 : list Z) : bool :=
  match l1, l2 with
  | [], [] => true
  | x :: l1', y :: l2' => (x =? y) && list_eqb l1' l2'
  | _, _ => false
  end.

(** [s.split(sep)] for a one-character separator *)
Fixpoint split (sep : ascii) (s : string) : list string :=
  match s with
  | EmptyString => [EmptyString]
  | String c s' =>
      if Ascii.eqb c sep then EmptyString :: split sep s'
      else match split sep s' with
           | [] => [String c EmptyString]
           | h :: t => String c h :: t
           end
  end.

(** ** The program *)

Section Program.

Context {W Conn : Type} {reader : Smartcard W Conn}.

(** [SmartCard.connect_to_chip(timeout)] *)
Definition connect_to_chip (timeout : Z) : M W (connection_value Conn) :=
  try_except
    (try_except
       (debug (Entering "SmartCard.connect_to_chip") ;;
        connection <- call (WaitForCard timeout) (waitforcard timeout) ;;
        call Connect (connect connection) ;;
        ret (Connection connection))
       is_CardRequestTimeoutException
       (fun _ => debug ConnectionTimedOut ;; ret PyFalse))
    (fun e => is_Exception e && negb (is_CardRequestTimeoutException e))
    (fun _ => raise (Exception "Card connection failed unexpectedly.")).

(** [PN532.in_communicate_thru_command(command_bytes)] *)
Definition in_communicate_thru_command (command_bytes : list Z)
  : M W (list Z) :=
  debug (Entering "PN532.in_communicate_thru_command") ;;
  ret ([0xD4; 0x42] ++ command_bytes).

(** [ACR122.direct_transmit_command(command_bytes)] *)
Definition direct_transmit_command (command_bytes : list Z) : M W (list Z) :=
  debug (Entering "ACR122.direct_transmit_command") ;;
  ret ([0xFF; 0x00; 0x00; 0x00] ++ [Z.of_nat (length command_bytes)]
         ++ command_bytes).

(** The [# Parse results] lines of [transmit_raw_command]:
    [ok = (sw1 == 0x90) and (data[:3] == [0xD5, 0x43, 0x00])],
    [data = data[3:]], [return data, ok]. *)
Definition unwrap_response (data : list Z) (sw1 sw2 : Z) : list Z * bool :=
  let ok := (sw1 =? 0x90) && list_eqb (firstn 3 data) [0xD5; 0x43; 0x00] in
  let data := skipn 3 data in
  (data, ok).

(** The [except RuntimeError] clause of [transmit_raw_command];
    [command_bytes] is what the local variable holds when the exception
    arrives. *)
Definition except_RuntimeError (command_bytes : list Z)
    (body : M W (list Z * bool)) : M W (list Z * bool) :=
  try_except body is_RuntimeError
    (fun _ => emit (LogError command_bytes) ;; ret ([], false)).

(** [ACR122.transmit_raw_command(command_bytes, connection)].

    The function has one [try] block, inside which [command_bytes] is
    rebound to the wrapped frame before the frame is transmitted; the
    handler logs whatever [command_bytes] holds then.  The model writes
    the clause twice, once for each binding: the handler itself raises
    nothing, so the inner clause never hands an exception to the outer
    one. *)
Definition transmit_raw_command (command_bytes : list Z)
    (connection : connection_value Conn) : M W (list Z * bool) :=
  debug (Entering "ACR122.transmit_raw_command") ;;
  except_RuntimeError command_bytes
    (connection <- match connection with
                   | PyNone => connect_to_chip 15
                   | _ => ret connection
                   end ;;
     match connection with
     | PyFalse => print ChipTimedOut ;; ret ([], false)
     | _ =>
         command_bytes <- in_communicate_thru_command command_bytes ;;
         command_bytes <- direct_transmit_command command_bytes ;;
         except_RuntimeError command_bytes
           ('(data, sw1, sw2) <-
              match connection with
              | Connection c =>
                  call (Transmit command_bytes) (transmit c command_bytes)
              | _ => raise (Exception "AttributeError")  (* None.transmit *)
              end ;;
            debug (Data data sw1 sw2) ;;
            ret (unwrap_response data sw1 sw2))
     end).

(** The [for command_bytes in commands] loop of [do_run], with its
    [break]. *)
Fixpoint do_run_loop (commands : list (list Z))
    (connection : connection_value Conn) : M W unit :=
  match commands with
  | [] => ret tt
  | command_bytes :: commands' =>
      print (TX command_bytes) ;;
      '(data, ok) <- transmit_raw_command command_bytes connection ;;
      if ok : bool then
        print RX_HEX ;;
        print (HexString data) ;;
        print RX_ASCII ;;
        print (ASCIIString data) ;;
        do_run_loop commands' connection
      else
        print (Failed command_bytes)
  end.

(** [[util.toBytes(command) for command in strings]] *)
Fixpoint toBytes_each (strings : list string) : M W (list (list Z)) :=
  match strings with
  | [] => ret []
  | s :: strings' =>
      b <- (fun w => Run (toBytes s) w []) ;;
      bs <- toBytes_each strings' ;;
      ret (b :: bs)
  end.

(** [NfcShell.do_run(args, timeout)] *)
Definition do_run (args : string) (timeout : Z) : M W unit :=
  debug (Entering "NfcShell.do_run") ;;
  connection <- connect_to_chip timeout ;;
  commands <- toBytes_each (split ";" args) ;;
  do_run_loop commands connection.

(** Every command of the list, run in order from world [w], came back
    with [ok] true; [tr] is what the loop emitted on the way and [w'] the
    world it left. *)
Inductive all_ok (connection : connection_value Conn)
  : list (list Z) -> W -> list event -> W -> Prop :=
| all_ok_nil w : all_ok connection [] w [] w
| all_ok_cons command_bytes commands w data tr w' :
    outcome (transmit_raw_command command_bytes connection w)
      = Ret (data, true) ->
    all_ok connection commands
      (world (transmit_raw_command command_bytes connection w)) tr w' ->
    all_ok connection (command_bytes :: commands) w
      (Output (TX command_bytes)
         :: trace (transmit_raw_command command_bytes connection w)
         ++ [Output RX_HEX; Output (HexString data);
             Output RX_ASCII; Output (ASCIIString data)]
         ++ tr)
      w'.

End Program.

(** ** Reading a trace *)

(** The frame that [transmit_raw_command] hands to [connection.transmit]
    for a command: the value of [command_bytes] after the two wrapping
    calls. *)
Definition frame_of (command_bytes : list Z) : list Z :=
  [0xFF; 0x00; 0x00; 0x00]
    ++ [Z.of_nat (length ([0xD4; 0x42] ++ command_bytes))]
    ++ ([0xD4; 0x42] ++ command_bytes).

(** The frames given to [connection.transmit], in order. *)
Fixpoint transmits (tr : list event) : list (list Z) :=
  match tr with
  | [] => []
  | Transmit frame :: tr' => frame :: transmits tr'
  | _ :: tr' => transmits tr'
  end.

(** What [do_run] reports for a command: the response it printed, or the
    command it declared failed. *)
Inductive report : Type :=
| Succeeded (data : list Z)
| FailedCommand (command_bytes : list Z).

Fixpoint reports (tr : list event) : list report :=
  match tr with
  | [] => []
  | Output (HexString data) :: tr' => Succeeded data :: reports tr'
  | Output (Failed command_bytes) :: tr' =>
      FailedCommand command_bytes :: reports tr'
  | _ :: tr' => reports tr'
  end.

(** What appears on the console. *)
Fixpoint printed (tr : list event) : list line :=
  match tr with
  | [] => []
  | Output l :: tr' => l :: printed tr'
  | _ :: tr' => printed tr'
  end.

(** What [transmit] answered makes the command fail: a [RuntimeError],
    or a response that unwraps to [ok] false. *)
Definition fails (answer : result (list Z * Z * Z)) : Prop :=
  match answer with
  | Raise e => is_RuntimeError e = true
  | Ret (data, sw1, sw2) => snd (unwrap_response data sw1 sw2) = false
  end.

(** ** A scripted reader

    A stand-in for the hardware: a card is present or not, and the
    reader answers the successive [transmit] calls with the responses of
    a script. *)
Module Scripted.

Record state : Type := State {
  card_present : bool;
  script : list (result (list Z * Z * Z))
}.

Definition hex_digit (c : ascii) : option Z :=
  let n := Z.of_nat (nat_of_ascii c) in
  if (48 <=? n) && (n <=? 57) then Some (n - 48)
  else if (65 <=? n) && (n <=? 70) then Some (n - 55)
  else if (97 <=? n) && (n <=? 102) then Some (n - 87)
  else None.

Fixpoint hex_bytes (s : string) : result (list Z) :=
  match s with
  | EmptyString => Ret []
  | String _ EmptyString => Raise (Exception "TypeError")
  | String a (String b s') =>
      match hex_digit a, hex_digit b, hex_bytes s' with
      | Some x, Some y, Ret l => Ret (16 * x + y :: l)
      | _, _, _ => Raise (Exception "TypeError")
      end
  end.

#[export] Instance reader : Smartcard state unit := {
  waitforcard _ w :=
    if card_present w then (Ret tt, w)
    else (Raise CardRequestTimeoutException, w);
  connect _ w := (Ret tt, w);
  transmit _ _ w :=
    match script w with
    | [] => (Raise (Exception "script exhausted"), w)
    | r :: rs => (r, State (card_present w) rs)
    end;
  toBytes := hex_bytes
}.

(** A variant that answers with the second status byte replaced. *)
Definition with_sw2 (sw2' : Z) : Smartcard state unit := {|
  waitforcard := waitforcard (Smartcard := reader);
  connect := connect (Smartcard := reader);
  transmit c frame w :=
    match transmit (Smartcard := reader) c frame w with
    | (Ret (data, sw1, _), w') => (Ret (data, sw1, sw2'), w')
    | other => other
    end;
  toBytes := hex_bytes
|}.

(** A reader that fails: waiting for a card raises [RuntimeError]. *)
Definition unplugged : Smartcard state unit := {|
  waitforcard _ w := (Raise RuntimeError, w);
  connect := connect (Smartcard := reader);
  transmit := transmit (Smartcard := reader);
  toBytes := hex_bytes
|}.

(** A card on the reader, and the answers still to come. *)
Definition card (answers : list (result (list Z * Z * Z))) : state :=
  State true answers.

(** No card on the reader. *)
Definition no_card : state := State false [].

End Scripted.

(** ** More of Python, and the logger set-up *)

(** [sep.join(strings)] *)
Fixpoint join (sep : ascii) (strings : list string) : string :=
  match strings with
  | [] => EmptyString
  | s :: strings' =>
      match strings' with
      | [] => s
      | _ :: _ => (s ++ String sep (join sep strings'))%string
      end
  end.

(** [s.count(c)] for one character *)
Fixpoint count (c : ascii) (s : string) : nat :=
  match s with
  | EmptyString => 0%nat
  | String a s' => if Ascii.eqb a c then S (count c s') else count c s'
  end.

(** [c in s] for one character *)
Fixpoint contains (c : ascii) (s : string) : bool :=
  match s with
  | EmptyString => false
  | String a s' => Ascii.eqb a c || contains c s'
  end.

(** The value of the list comprehension of [do_run]: the converted
    commands, or the exception of the first string that does not
    convert. *)
Fixpoint toBytes_list {W Conn : Type} {reader : Smartcard W Conn}
    (strings : list string) : result (list (list Z)) :=
  match strings with
  | [] => Ret []
  | s :: strings' =>
      match toBytes s with
      | Raise e => Raise e
      | Ret b =>
          match toBytes_list strings' with
          | Raise e => Raise e
          | Ret bs => Ret (b :: bs)
          end
      end
  end.

(** An integer that fits the one byte a frame element stands for. *)
Definition is_byte (x : Z) : Prop := 0 <= x <= 255.

Module Logging.

(** The levels of Python's [logging] module. *)
Definition DEBUG : Z := 10.
Definition INFO : Z := 20.
Definition WARNING : Z := 30.
Definition ERROR : Z := 40.
Definition CRITICAL : Z := 50.

Inductive stream : Type := stdout | stderr.

(** A handler: where it writes ([None] for [logging.NullHandler]), its
    level, and its filter on [record.levelno]. *)
Record handler : Type := Handler {
  hstream : option stream;
  hlevel : Z;
  hfilter : Z -> bool
}.

(** The state of the logging set-up: the level of the root logger and
    the handlers of [_logger], in the order they were added. *)
Record config : Type := Config {
  root_level : Z;
  handlers : list handler
}.

(** The module level lines [_logger = logging.getLogger(NAME)] and
    [_logger.addHandler(logging.NullHandler())]; the root logger starts
    at [WARNING]. *)
Definition initial : config :=
  Config WARNING [Handler None 0 (fun _ => true)].

(** [configure_logger(level)] *)
Definition configure_logger (level : Z) (cfg : config) : config :=
  let stderr_handler := Handler (Some stderr) WARNING (fun _ => true) in
  let cfg := Config level (handlers cfg ++ [stderr_handler]) in
  if level <=? INFO then
    let stdout_handler :=
      Handler (Some stdout) level (fun levelno => levelno <=? INFO) in
    Config (root_level cfg) (handlers cfg ++ [stdout_handler])
  else cfg.

(** [log_level = logging.WARNING - (10 * program_args.verbose)] in
    [_main] *)
Definition log_level (verbose : Z) : Z := WARNING - 10 * verbose.

(** What the [logging] module does with a record of [_logger], whose
    own level is not set: the record is dropped when its level is not
    positive ([logging.disable] is at its default, 0) or is below the
    level of the root logger; otherwise every handler whose level is not
    above the record's and whose filter accepts it writes it to its
    stream. *)
Definition written (cfg : config) (levelno : Z) : list stream :=
  if (0 <? levelno) && (root_level cfg <=? levelno) then
    flat_map
      (fun h =>
         if (hlevel h <=? levelno) && hfilter h levelno then
           match hstream h with Some s => [s] | None => [] end
         else [])
      (handlers cfg)
  else [].

End Logging.

(** ** Properties *)

Lemma list_eqb_eq (l1 l2 : list Z) : list_eqb l1 l2 = true <-> l1 = l2.
Proof.
  revert l2; induction l1 as [|x l1 IH]; intros [|y l2]; simpl;
    try (split; (reflexivity || discriminate)).
  rewrite andb_true_iff, Z.eqb_eq, IH.
  split; [intros [-> ->]; reflexivity | intros [= -> ->]; split; reflexivity].
Qed.

Lemma split_not_nil (sep : ascii) (s : string) : split sep s <> [].
Proof.
  destruct s as [|c s]; simpl; [discriminate|].
  destruct (Ascii.eqb c sep); [discriminate|].
  destruct (split sep s); discriminate.
Qed.

Lemma transmits_app (tr1 tr2 : list event) :
  transmits (tr1 ++ tr2) = transmits tr1 ++ transmits tr2.
Proof.
  induction tr1 as [|[] tr1 IH]; simpl; rewrite ?IH; reflexivity.
Qed.

Lemma reports_app (tr1 tr2 : list event) :
  reports (tr1 ++ tr2) = reports tr1 ++ reports tr2.
Proof.
  induction tr1 as [|[| |[]| | |] tr1 IH]; simpl; rewrite ?IH; reflexivity.
Qed.

Lemma printed_app (tr1 tr2 : list event) :
  printed (tr1 ++ tr2) = printed tr1 ++ printed tr2.
Proof.
  induction tr1 as [|[] tr1 IH]; simpl; rewrite ?IH; reflexivity.
Qed.

(** ** Running the monad, one step at a time *)

Lemma bind_Ret {W A B} (m : M W A) (f : A -> M W B) (w w1 w2 : W) (a : A)
    (o : result B) (t t1 t2 : list event) :
  m w = Run (Ret a) w1 t1 ->
  f a w1 = Run o w2 t2 ->
  t = t1 ++ t2 ->
  bind m f w = Run o w2 t.
Proof.
  intros Hm Hf ->. unfold bind. rewrite Hm. cbn. rewrite Hf. reflexivity.
Qed.

Lemma bind_Raise {W A B} (m : M W A) (f : A -> M W B) (w w1 : W) (e : exn)
    (t1 : list event) :
  m w = Run (Raise e) w1 t1 ->
  bind m f w = Run (Raise e) w1 t1.
Proof. intros Hm. unfold bind. rewrite Hm. reflexivity. Qed.

Lemma try_except_Ret {W A} (body : M W A) (class : exn -> bool)
    (handler : exn -> M W A) (w w1 : W) (a : A) (t1 : list event) :
  body w = Run (Ret a) w1 t1 ->
  try_except body class handler w = Run (Ret a) w1 t1.
Proof. intros Hb. unfold try_except. rewrite Hb. reflexivity. Qed.

Lemma try_except_caught {W A} (body : M W A) (class : exn -> bool)
    (handler : exn -> M W A) (w w1 w2 : W) (e : exn) (o : result A)
    (t t1 t2 : list event) :
  body w = Run (Raise e) w1 t1 ->
  class e = true ->
  handler e w1 = Run o w2 t2 ->
  t = t1 ++ t2 ->
  try_except body class handler w = Run o w2 t.
Proof.
  intros Hb Hc Hh ->. unfold try_except. rewrite Hb. cbn. rewrite Hc, Hh.
  reflexivity.
Qed.

Lemma try_except_passes {W A} (body : M W A) (class : exn -> bool)
    (handler : exn -> M W A) (w w1 : W) (e : exn) (t1 : list event) :
  body w = Run (Raise e) w1 t1 ->
  class e = false ->
  try_except body class handler w = Run (Raise e) w1 t1.
Proof.
  intros Hb Hc. unfold try_except. rewrite Hb. cbn. rewrite Hc.
  reflexivity.
Qed.

Lemma call_run {W A} (e : event) (f : W -> result A * W) (w w1 : W)
    (a : result A) :
  f w = (a, w1) ->
  call e f w = Run a w1 [e].
Proof. intros Hf. unfold call. rewrite Hf. reflexivity. Qed.

(** Runs a computation whose calls to the reader are settled by
    hypotheses of the context, rule by rule. *)
Ltac run :=
  cbv beta iota;
  lazymatch goal with
  | |- bind _ _ _ = _ =>
      first [ eapply bind_Ret; [ run | run | reflexivity ]
            | eapply bind_Raise; run ]
  | |- try_except _ _ _ _ = _ =>
      first [ eapply try_except_Ret; run
            | eapply try_except_caught;
                [ run | first [ eassumption | reflexivity ] | run
                | reflexivity ]
            | eapply try_except_passes;
                [ run | first [ eassumption | reflexivity ] ] ]
  | |- call _ _ _ = _ => eapply call_run; eassumption
  | |- _ => reflexivity
  end.

(** The same, for computations that also go through results already
    established as hypotheses. *)
Ltac run_hyp :=
  cbv beta iota;
  lazymatch goal with
  | |- bind _ _ _ = _ =>
      first [ eapply bind_Ret; [ run_hyp | run_hyp | reflexivity ]
            | eapply bind_Raise; run_hyp ]
  | |- try_except _ _ _ _ = _ =>
      first [ eapply try_except_Ret; run_hyp
            | eapply try_except_caught;
                [ run_hyp | first [ eassumption | reflexivity ] | run_hyp
                | reflexivity ]
            | eapply try_except_passes;
                [ run_hyp | first [ eassumption | reflexivity ] ] ]
  | |- call _ _ _ = _ => eapply call_run; eassumption
  | |- _ => first [ eassumption | reflexivity ]
  end.

Section Properties.

Context {W Conn : Type} {reader : Smartcard W Conn}.

(** Lines 101-102 of [transmit_raw_command]: the two wrapping calls
    return [frame_of] and leave the world alone. *)
Lemma wrap_frame (command_bytes : list Z) (w : W) :
  (tunneled <- in_communicate_thru_command command_bytes ;;
   direct_transmit_command tunneled) w
  = Run (Ret (frame_of command_bytes)) w
      [LogDebug (Entering "PN532.in_communicate_thru_command");
       LogDebug (Entering "ACR122.direct_transmit_command")].
Proof. reflexivity. Qed.

(** [transmit_raw_command] on a connection object: one [transmit] call
    with the wrapped frame, then the three possible endings. *)
Lemma transmit_raw_command_connected (command_bytes : list Z) (c : Conn)
    (w : W) :
  transmit_raw_command command_bytes (Connection c) w
  = let pre := [LogDebug (Entering "ACR122.transmit_raw_command");
                LogDebug (Entering "PN532.in_communicate_thru_command");
                LogDebug (Entering "ACR122.direct_transmit_command");
                Transmit (frame_of command_bytes)] in
    match transmit c (frame_of command_bytes) w with
    | (Ret (data, sw1, sw2), w') =>
        Run (Ret (unwrap_response data sw1 sw2)) w'
          (pre ++ [LogDebug (Data data sw1 sw2)])
    | (Raise e, w') =>
        if is_RuntimeError e
        then Run (Ret ([], false)) w'
               (pre ++ [LogError (frame_of command_bytes)])
        else Run (Raise e) w' pre
    end.
Proof.
  destruct (transmit c (frame_of command_bytes) w)
    as [[[[data sw1] sw2]|e] w'] eqn:Htx; cbv zeta.
  - unfold transmit_raw_command, except_RuntimeError. run.
  - destruct (is_RuntimeError e) eqn:He;
      unfold transmit_raw_command, except_RuntimeError; run.
Qed.

(** [transmit_raw_command] when the connection is [False]. *)
Lemma transmit_raw_command_absent (command_bytes : list Z) (w : W) :
  transmit_raw_command command_bytes PyFalse w
  = Run (Ret ([], false)) w
      [LogDebug (Entering "ACR122.transmit_raw_command"); Output ChipTimedOut].
Proof. reflexivity. Qed.

(** The list comprehension of [do_run] keeps one entry for each string. *)
Lemma toBytes_each_length (strings : list string) (w : W)
    (commands : list (list Z)) :
  outcome (toBytes_each strings w) = Ret commands ->
  length commands = length strings.
Proof.
  revert commands; induction strings as [|s strings IH]; intros commands.
  - intros [= <-]. reflexivity.
  - cbn [toBytes_each]. unfold bind at 1. cbn [outcome world trace].
    destruct (toBytes s) as [b|e]; [|discriminate].
    unfold bind. cbn [outcome world trace].
    destruct (outcome (toBytes_each strings w)) as [bs|e] eqn:Hbs;
      cbn [outcome]; [|discriminate].
    intros [= <-]. cbn [length]. rewrite (IH bs eq_refl). reflexivity.
Qed.

(** One turn of the loop of [do_run]. *)
Lemma do_run_loop_cons (command_bytes : list Z) (commands : list (list Z))
    (connection : connection_value Conn) (w : W) :
  do_run_loop (command_bytes :: commands) connection w
  = let r := transmit_raw_command command_bytes connection w in
    match outcome r with
    | Ret (data, true) =>
        let r' := do_run_loop commands connection (world r) in
        Run (outcome r') (world r')
          (Output (TX command_bytes) :: trace r
             ++ [Output RX_HEX; Output (HexString data);
                 Output RX_ASCII; Output (ASCIIString data)]
             ++ trace r')
    | Ret (data, false) =>
        Run (Ret tt) (world r)
          (Output (TX command_bytes) :: trace r
             ++ [Output (Failed command_bytes)])
    | Raise e => Run (Raise e) (world r) (Output (TX command_bytes) :: trace r)
    end.
Proof.
  cbn [do_run_loop]. unfold bind at 1 2. unfold print, emit.
  cbn [outcome world trace app].
  destruct (outcome (transmit_raw_command command_bytes connection w))
    as [[data [|]]|e]; cbn [outcome world trace app].
  - unfold bind. cbn [outcome world trace app]. reflexivity.
  - reflexivity.
  - reflexivity.
Qed.

(** After a run of successful commands the loop goes on with the rest. *)
Lemma do_run_loop_all_ok (connection : connection_value Conn)
    (pre rest : list (list Z)) (w w' : W) (tr : list event) :
  all_ok connection pre w tr w' ->
  do_run_loop (pre ++ rest) connection w
  = let r := do_run_loop rest connection w' in
    Run (outcome r) (world r) (tr ++ trace r).
Proof.
  induction 1 as [w|command_bytes commands w data tr w' Hok Hrest IH].
  - cbn [app]. destruct (do_run_loop rest connection w); reflexivity.
  - change ((command_bytes :: commands) ++ rest)
      with (command_bytes :: (commands ++ rest)).
    rewrite do_run_loop_cons. cbv zeta. rewrite Hok, IH.
    cbn [outcome world trace]. f_equal.
    cbn [app]. f_equal. rewrite <- !app_assoc. reflexivity.
Qed.

(** The events of one [transmit_raw_command]: no report, and at most one
    call of [transmit]. *)
Lemma transmit_raw_command_trace (command_bytes : list Z)
    (connection : connection_value Conn) (w : W) :
  reports (trace (transmit_raw_command command_bytes connection w)) = []
  /\ (length (transmits
               (trace (transmit_raw_command command_bytes connection w)))
      <= 1)%nat.
Proof.
  assert (Hrun : forall r : run W (list Z * bool),
             reports (trace r) = [] ->
             (length (transmits (trace r)) <= 1)%nat ->
             transmit_raw_command command_bytes connection w = r ->
             reports (trace (transmit_raw_command command_bytes connection w))
             = []
             /\ (length (transmits
                          (trace (transmit_raw_command command_bytes
                                    connection w))) <= 1)%nat).
  { intros r Hr Ht ->. split; assumption. }
  destruct connection as [| |c].
  - destruct (waitforcard 15 w) as [[c|e] w1] eqn:Hwait.
    + destruct (connect c w1) as [[[]|e] w2] eqn:Hconnect.
      * destruct (transmit c (frame_of command_bytes) w2)
          as [[[[data sw1] sw2]|e] w3] eqn:Htx; [|destruct e];
          (eapply Hrun;
           [| | unfold transmit_raw_command, except_RuntimeError,
                  connect_to_chip; run ]; cbn; (reflexivity || lia)).
      * destruct e;
          (eapply Hrun;
           [| | unfold transmit_raw_command, except_RuntimeError,
                  connect_to_chip; run ]; cbn; (reflexivity || lia)).
    + destruct e;
        (eapply Hrun;
         [| | unfold transmit_raw_command, except_RuntimeError,
                connect_to_chip; run ]; cbn; (reflexivity || lia)).
  - rewrite transmit_raw_command_absent. cbn. split; [reflexivity|lia].
  - rewrite transmit_raw_command_connected. cbv zeta.
    destruct (transmit c _ w) as [[[[data sw1] sw2]|e] w']; cbn;
      [split; [reflexivity|lia]|].
    destruct (is_RuntimeError e); cbn; split; (reflexivity || lia).
Qed.

(** What a run of successful commands leaves in the trace. *)
Lemma all_ok_trace (connection : connection_value Conn)
    (commands : list (list Z)) (w w' : W) (tr : list event) :
  all_ok connection commands w tr w' ->
  length (reports tr) = length commands
  /\ (length (transmits tr) <= length commands)%nat.
Proof.
  induction 1 as [w|command_bytes commands w data tr w' Hok Hrest [IHr IHt]].
  - split; reflexivity.
  - destruct (transmit_raw_command_trace command_bytes connection w)
      as [Hr Ht].
    cbn [reports transmits].
    rewrite reports_app, transmits_app, Hr.
    cbn [reports transmits app length].
    rewrite IHr. split; [reflexivity|].
    rewrite length_app. lia.
Qed.

(** An exception of [transmit] that is no [RuntimeError] leaves
    [transmit_raw_command] and the loop of [do_run] as it is. *)
Lemma other_exceptions_propagate (c : Conn) (command_bytes : list Z)
    (commands : list (list Z)) (w w' : W) (e : exn) :
  transmit c (frame_of command_bytes) w = (Raise e, w') ->
  is_RuntimeError e = false ->
  outcome (transmit_raw_command command_bytes (Connection c) w) = Raise e
  /\ outcome (do_run_loop (command_bytes :: commands) (Connection c) w)
     = Raise e.
Proof.
  intros Htx He.
  assert (Hraw : transmit_raw_command command_bytes (Connection c) w
                 = Run (Raise e) w'
                     [LogDebug (Entering "ACR122.transmit_raw_command");
                      LogDebug (Entering "PN532.in_communicate_thru_command");
                      LogDebug (Entering "ACR122.direct_transmit_command");
                      Transmit (frame_of command_bytes)]).
  { rewrite transmit_raw_command_connected. cbv zeta. rewrite Htx, He.
    reflexivity. }
  split.
  - rewrite Hraw. reflexivity.
  - rewrite do_run_loop_cons. cbv zeta. rewrite Hraw. reflexivity.
Qed.

(** C1: for every byte sequence [b] of at most 255 bytes,
    [direct_transmit_command] applied to the result of
    [in_communicate_thru_command b] returns exactly the frame
    [0xFF, 0x00, 0x00, 0x00, len(b)+2, 0xD4, 0x42] followed by [b]; the
    element at index 4 is the number of elements that follow it, which
    are the tunnelled payload [0xD4, 0x42] followed by [b]. *)
Theorem direct_transmit_of_in_communicate_thru (b : list Z) (w : W) :
  (length b <= 255)%nat ->
  exists frame : list Z,
    outcome ((tunneled <- in_communicate_thru_command b ;;
              direct_transmit_command tunneled) w) = Ret frame
    /\ frame = [0xFF; 0x00; 0x00; 0x00; Z.of_nat (length b) + 2; 0xD4; 0x42]
                 ++ b
    /\ skipn 5 frame = [0xD4; 0x42] ++ b
    /\ nth 4 frame 0 = Z.of_nat (length (skipn 5 frame)).
Proof.
  intros _. exists (frame_of b). rewrite wrap_frame.
  split; [reflexivity|].
  assert (Hlen : Z.of_nat (length ([0xD4; 0x42] ++ b))
                 = Z.of_nat (length b) + 2).
  { cbn [app length]. lia. }
  unfold frame_of. rewrite Hlen.
  split; [reflexivity|].
  split; [reflexivity|].
  cbn [app nth skipn length]. lia.
Qed.

(** C2: when the reader answers a command with [(data, sw1, sw2)],
    [transmit_raw_command] returns a pair whose flag [ok] is true if and
    only if [sw1 == 0x90] and the first three elements of [data] are
    [0xD5, 0x43, 0x00]; so [ok] is false as soon as [sw1 != 0x90] or the
    first three elements differ from the marker. *)
Theorem transmit_raw_command_ok_iff (command_bytes : list Z) (c : Conn)
    (w w' : W) (data : list Z) (sw1 sw2 : Z) :
  transmit c (frame_of command_bytes) w = (Ret (data, sw1, sw2), w') ->
  exists (result_bytes : list Z) (ok : bool),
    outcome (transmit_raw_command command_bytes (Connection c) w)
      = Ret (result_bytes, ok)
    /\ (result_bytes, ok) = unwrap_response data sw1 sw2
    /\ (ok = true <-> sw1 = 0x90 /\ firstn 3 data = [0xD5; 0x43; 0x00])
    /\ (sw1 <> 0x90 \/ firstn 3 data <> [0xD5; 0x43; 0x00] -> ok = false).
Proof.
  intros Htx.
  exists (skipn 3 data),
    ((sw1 =? 0x90) && list_eqb (firstn 3 data) [0xD5; 0x43; 0x00]).
  assert (Hiff : (sw1 =? 0x90) && list_eqb (firstn 3 data) [0xD5; 0x43; 0x00]
                 = true
                 <-> sw1 = 0x90 /\ firstn 3 data = [0xD5; 0x43; 0x00]).
  { rewrite andb_true_iff, Z.eqb_eq, list_eqb_eq. reflexivity. }
  rewrite transmit_raw_command_connected. cbv zeta. rewrite Htx.
  split; [reflexivity|]. split; [reflexivity|]. split; [exact Hiff|].
  intros Hno. apply not_true_is_false. intros Hok.
  apply Hiff in Hok. destruct Hok as [H1 H3].
  destruct Hno as [Hno|Hno]; contradiction.
Qed.

(** C3: the bytes returned by response unwrapping are the response with
    its first three elements removed, whatever [ok] is; a response of
    fewer than three elements gives the empty list and [ok] false; the
    marker [0xD5, 0x43, 0x00] followed by a payload, with status
    [0x90, 0x00], gives the payload and [ok] true.  Unwrapping is a total
    function, and once the reader has answered, [transmit_raw_command]
    returns what it computes and raises nothing. *)
Theorem unwrap_response_strips_marker (data : list Z) (sw1 sw2 : Z) :
  fst (unwrap_response data sw1 sw2) = skipn 3 data
  /\ ((length data < 3)%nat -> unwrap_response data sw1 sw2 = ([], false))
  /\ (forall payload : list Z,
        unwrap_response ([0xD5; 0x43; 0x00] ++ payload) 0x90 0x00
        = (payload, true))
  /\ (forall (command_bytes : list Z) (c : Conn) (w w' : W),
        transmit c (frame_of command_bytes) w = (Ret (data, sw1, sw2), w') ->
        outcome (transmit_raw_command command_bytes (Connection c) w)
        = Ret (unwrap_response data sw1 sw2)).
Proof.
  split; [reflexivity|]. split; [|split].
  - intros Hlen. unfold unwrap_response.
    destruct data as [|a [|b [|x data]]]; cbn [length] in Hlen; try lia;
      cbn [skipn firstn list_eqb]; rewrite ?andb_false_r; reflexivity.
  - intros payload. reflexivity.
  - intros command_bytes c w w' Htx.
    rewrite transmit_raw_command_connected. cbv zeta. rewrite Htx.
    reflexivity.
Qed.

(** C4: [do_run] takes the commands from left to right and stops at the
    first one that comes back with [ok] false: after the commands [pre]
    that succeeded, the failing command is echoed, sent and reported as
    failed, and that is the end of the run, whatever commands [post]
    follow; nothing is transmitted or reported for them. *)
Theorem do_run_stops_at_first_failure (connection : connection_value Conn)
    (pre post : list (list Z)) (command_bytes data : list Z) (w w1 : W)
    (tr : list event) :
  all_ok connection pre w tr w1 ->
  outcome (transmit_raw_command command_bytes connection w1)
    = Ret (data, false) ->
  let r := transmit_raw_command command_bytes connection w1 in
  let run := do_run_loop (pre ++ command_bytes :: post) connection w in
  outcome run = Ret tt
  /\ world run = world r
  /\ trace run
     = tr ++ Output (TX command_bytes) :: trace r
          ++ [Output (Failed command_bytes)]
  /\ reports (trace run) = reports tr ++ [FailedCommand command_bytes]
  /\ length (reports (trace run)) = S (length pre)
  /\ (length (transmits (trace run)) <= S (length pre))%nat.
Proof.
  intros Hpre Hfail r run.
  assert (Hrun : run = Run (Ret tt) (world r)
                         (tr ++ Output (TX command_bytes) :: trace r
                             ++ [Output (Failed command_bytes)])).
  { unfold run. rewrite (do_run_loop_all_ok _ _ _ _ _ _ Hpre).
    rewrite do_run_loop_cons. cbv zeta. rewrite Hfail. reflexivity. }
  destruct (transmit_raw_command_trace command_bytes connection w1)
    as [Hr Ht].
  destruct (all_ok_trace _ _ _ _ _ Hpre) as [Hpr Hpt].
  fold r in Hr, Ht.
  assert (Hreports : reports (trace run)
                     = reports tr ++ [FailedCommand command_bytes]).
  { rewrite Hrun. cbn [trace]. rewrite reports_app. cbn [reports].
    rewrite reports_app, Hr. reflexivity. }
  split; [rewrite Hrun; reflexivity|].
  split; [rewrite Hrun; reflexivity|].
  split; [rewrite Hrun; reflexivity|].
  split; [exact Hreports|].
  split.
  - rewrite Hreports, length_app, Hpr. cbn [length]. lia.
  - rewrite Hrun. cbn [trace]. rewrite transmits_app. cbn [transmits].
    rewrite transmits_app, !length_app. cbn [transmits length]. lia.
Qed.

(** C5, as the code has it: [direct_transmit_command] has no length
    check.  For a tunnelled payload of more than 255 bytes it raises
    nothing and returns the frame whose element at index 4 is the length
    itself, a value above 255 (not cut down to one byte), followed by the
    whole payload; and [transmit_raw_command] hands that frame to
    [connection.transmit]. *)
Theorem direct_transmit_command_has_no_length_check (tunneled : list Z)
    (w : W) :
  (255 < length tunneled)%nat ->
  exists frame : list Z,
    outcome (direct_transmit_command tunneled w) = Ret frame
    /\ frame = [0xFF; 0x00; 0x00; 0x00; Z.of_nat (length tunneled)]
                 ++ tunneled
    /\ nth 4 frame 0 = Z.of_nat (length tunneled)
    /\ 255 < nth 4 frame 0
    /\ skipn 5 frame = tunneled
    /\ (forall (command_bytes : list Z) (c : Conn) (w' : W),
          tunneled = [0xD4; 0x42] ++ command_bytes ->
          transmits (trace (transmit_raw_command command_bytes
                              (Connection c) w'))
          = [frame]).
Proof.
  intros Hlen.
  exists ([0xFF; 0x00; 0x00; 0x00] ++ [Z.of_nat (length tunneled)]
            ++ tunneled).
  split; [reflexivity|]. split; [reflexivity|]. split; [reflexivity|].
  split; [cbn [app nth]; lia|]. split; [reflexivity|].
  intros command_bytes c w' ->.
  rewrite transmit_raw_command_connected. cbv zeta.
  destruct (transmit c _ w') as [[[[data sw1] sw2]|e] w2];
    [reflexivity|].
  destruct (is_RuntimeError e); reflexivity.
Qed.

(** C6, as the code has it: when the connection is [False] (no chip
    within the timeout) and the command list is not empty, [do_run]
    raises nothing and transmits nothing; [transmit_raw_command] prints
    the timeout line and returns [([], False)], the pair it also returns
    for a caught [RuntimeError]; [do_run] reports the first command as
    failed and stops, so there is exactly one report.  The timeout line
    on the console is what tells this run from a failed transmission.
    [connect_to_chip] returns [False] when waiting for the card ends in
    [CardRequestTimeoutException]. *)
Theorem absent_session_fails_first_command (command_bytes : list Z)
    (commands : list (list Z)) (w : W) :
  do_run_loop (command_bytes :: commands) PyFalse w
  = Run (Ret tt) w
      [Output (TX command_bytes);
       LogDebug (Entering "ACR122.transmit_raw_command");
       Output ChipTimedOut;
       Output (Failed command_bytes)]
  /\ outcome (transmit_raw_command command_bytes PyFalse w)
     = Ret ([], false)
  /\ reports (trace (do_run_loop (command_bytes :: commands) PyFalse w))
     = [FailedCommand command_bytes]
  /\ transmits (trace (do_run_loop (command_bytes :: commands) PyFalse w))
     = []
  /\ (forall (timeout : Z) (w' : W),
        waitforcard timeout w = (Raise CardRequestTimeoutException, w') ->
        outcome (connect_to_chip timeout w) = Ret PyFalse).
Proof.
  assert (Hrun : do_run_loop (command_bytes :: commands) PyFalse w
                 = Run (Ret tt) w
                     [Output (TX command_bytes);
                      LogDebug (Entering "ACR122.transmit_raw_command");
                      Output ChipTimedOut;
                      Output (Failed command_bytes)]).
  { rewrite do_run_loop_cons, transmit_raw_command_absent. reflexivity. }
  rewrite Hrun. repeat (split; [reflexivity|]).
  intros timeout w' Hwait.
  assert (Hconnect : connect_to_chip timeout w
                     = Run (Ret PyFalse) w'
                         [LogDebug (Entering "SmartCard.connect_to_chip");
                          WaitForCard timeout;
                          LogDebug ConnectionTimedOut]).
  { unfold connect_to_chip. run. }
  rewrite Hconnect. reflexivity.
Qed.

(** What the [except RuntimeError] clause does and does not cover.  A
    [RuntimeError] raised by [connection.transmit] is caught and logged,
    [transmit_raw_command] returns [([], False)] for it, and [do_run]
    stops there.  A response that unwraps to [ok] false returns
    [(data[3:], False)], and [do_run] treats the two alike: it returns
    normally, prints the same failure line after the echo of the
    command, and transmits nothing more.  An exception of [transmit]
    of any other class goes through the clause untouched and leaves
    [transmit_raw_command] and [do_run]. *)
Theorem RuntimeError_is_caught_and_stops (c : Conn)
    (pre post : list (list Z)) (command_bytes : list Z) (w w1 w2 : W)
    (tr : list event) (answer : result (list Z * Z * Z)) :
  all_ok (Connection c) pre w tr w1 ->
  transmit c (frame_of command_bytes) w1 = (answer, w2) ->
  let r := transmit_raw_command command_bytes (Connection c) w1 in
  let run := do_run_loop (pre ++ command_bytes :: post) (Connection c) w in
  (fails answer ->
   (exists data : list Z, outcome r = Ret (data, false))
   /\ (forall (data : list Z) (sw1 sw2 : Z),
         answer = Ret (data, sw1, sw2) ->
         outcome r = Ret (skipn 3 data, false))
   /\ (forall e : exn,
         answer = Raise e ->
         outcome r = Ret ([], false)
         /\ In (LogError (frame_of command_bytes)) (trace r))
   /\ outcome run = Ret tt
   /\ world run = w2
   /\ printed (trace run)
      = printed tr ++ [TX command_bytes; Failed command_bytes]
   /\ transmits (trace run) = transmits tr ++ [frame_of command_bytes])
  /\ (forall e : exn,
        answer = Raise e ->
        is_RuntimeError e = false ->
        outcome r = Raise e /\ outcome run = Raise e).
Proof.
  intros Hpre Htx r run. split.
  2:{ intros e -> He.
      destruct (other_exceptions_propagate c command_bytes post w1 w2 e
                  Htx He) as [Hraw Hloop].
      split; [exact Hraw|].
      unfold run. rewrite (do_run_loop_all_ok _ _ _ _ _ _ Hpre).
      cbv zeta. cbn [outcome]. exact Hloop. }
  intros Hfails.
  pose (pre_events := [LogDebug (Entering "ACR122.transmit_raw_command");
                       LogDebug (Entering "PN532.in_communicate_thru_command");
                       LogDebug (Entering "ACR122.direct_transmit_command");
                       Transmit (frame_of command_bytes)]).
  assert (Hr : exists data last,
             r = Run (Ret (data, false)) w2 (pre_events ++ [last])
             /\ (forall data' sw1 sw2, answer = Ret (data', sw1, sw2) ->
                                       data = skipn 3 data')
             /\ (forall e, answer = Raise e ->
                           data = []
                           /\ last = LogError (frame_of command_bytes))
             /\ printed [last] = [] /\ transmits [last] = []).
  { unfold r. rewrite transmit_raw_command_connected. cbv zeta.
    rewrite Htx. destruct answer as [[[data sw1] sw2]|e];
      cbn [fails] in Hfails.
    - exists (skipn 3 data), (LogDebug (Data data sw1 sw2)).
      split; [|split; [intros ? ? ? [= <- _ _]; reflexivity
                      |split; [discriminate|split; reflexivity]]].
      f_equal. unfold unwrap_response in *. cbn [snd] in Hfails.
      rewrite Hfails. reflexivity.
    - rewrite Hfails. exists [], (LogError (frame_of command_bytes)).
      split; [reflexivity|]. split; [discriminate|].
      split; [intros; split; reflexivity|split; reflexivity]. }
  destruct Hr as (data & last & Hr & Hnack & Hraise & Hprinted & Htransmits).
  assert (Hrun : run = Run (Ret tt) w2
                         (tr ++ Output (TX command_bytes)
                             :: (pre_events ++ [last])
                             ++ [Output (Failed command_bytes)])).
  { unfold run. rewrite (do_run_loop_all_ok _ _ _ _ _ _ Hpre).
    rewrite do_run_loop_cons. fold r. rewrite Hr. reflexivity. }
  split; [exists data; rewrite Hr; reflexivity|].
  split.
  { intros data' sw1 sw2 Hanswer. rewrite Hr, (Hnack _ _ _ Hanswer).
    reflexivity. }
  split.
  { intros e He. destruct (Hraise e He) as [-> ->]. rewrite Hr.
    split; [reflexivity|]. cbn [trace]. apply in_or_app. right. left.
    reflexivity. }
  rewrite Hrun. cbn [outcome world trace].
  split; [reflexivity|]. split; [reflexivity|].
  split.
  - rewrite printed_app. cbn [printed]. rewrite !printed_app, Hprinted.
    reflexivity.
  - rewrite transmits_app. cbn [transmits]. rewrite !transmits_app, Htransmits.
    reflexivity.
Qed.

(** C8: on the empty command list the loop of [do_run] does nothing: it
    returns at once, reports nothing, and makes no call of [transmit]
    (nor any other call to the reader). *)
Theorem do_run_loop_nil (connection : connection_value Conn) (w : W) :
  do_run_loop [] connection w = Run (Ret tt) w []
  /\ reports (trace (do_run_loop [] connection w)) = []
  /\ transmits (trace (do_run_loop [] connection w)) = [].
Proof. repeat split. Qed.

(** C9: the two wrapping functions are deterministic and keep no state:
    on equal byte sequences they return equal frames, whatever the state
    of the world they are called in, and they leave that state as it
    was. *)
Theorem wrap_functions_deterministic (b1 b2 : list Z) (w1 w2 : W) :
  b1 = b2 ->
  outcome (in_communicate_thru_command b1 w1)
    = outcome (in_communicate_thru_command b2 w2)
  /\ outcome (direct_transmit_command b1 w1)
     = outcome (direct_transmit_command b2 w2)
  /\ trace (in_communicate_thru_command b1 w1)
     = trace (in_communicate_thru_command b2 w2)
  /\ trace (direct_transmit_command b1 w1)
     = trace (direct_transmit_command b2 w2)
  /\ world (in_communicate_thru_command b1 w1) = w1
  /\ world (direct_transmit_command b1 w1) = w1
  /\ (exists frame, outcome (in_communicate_thru_command b1 w1) = Ret frame)
  /\ (exists frame, outcome (direct_transmit_command b1 w1) = Ret frame).
Proof.
  intros ->. repeat (split; [reflexivity|]).
  split; eexists; reflexivity.
Qed.

End Properties.

(** C10: the second status byte has no influence on what
    [transmit_raw_command] returns: two readers that answer the same
    frame with the same data and the same [sw1], and differ in [sw2]
    only, lead to the same pair of result bytes and [ok]; response
    unwrapping gives the same pair for any two values of [sw2], and it
    reports success for the marker under [sw1 == 0x90] whatever [sw2]
    is. *)
Theorem sw2_has_no_influence (W Conn : Type)
    (reader1 reader2 : Smartcard W Conn) (command_bytes : list Z) (c : Conn)
    (w w1 w2 : W) (data : list Z) (sw1 sw2 sw2' : Z) :
  transmit (Smartcard := reader1) c (frame_of command_bytes) w
    = (Ret (data, sw1, sw2), w1) ->
  transmit (Smartcard := reader2) c (frame_of command_bytes) w
    = (Ret (data, sw1, sw2'), w2) ->
  unwrap_response data sw1 sw2 = unwrap_response data sw1 sw2'
  /\ outcome (transmit_raw_command (reader := reader1) command_bytes
                (Connection c) w)
     = outcome (transmit_raw_command (reader := reader2) command_bytes
                  (Connection c) w)
  /\ outcome (transmit_raw_command (reader := reader1) command_bytes
                (Connection c) w)
     = Ret (unwrap_response data sw1 0x00)
  /\ (sw1 = 0x90 -> firstn 3 data = [0xD5; 0x43; 0x00] ->
      snd (unwrap_response data sw1 sw2) = true).
Proof.
  intros H1 H2.
  rewrite !transmit_raw_command_connected. cbv zeta. rewrite H1, H2.
  repeat (split; [reflexivity|]).
  intros -> Hmarker. unfold unwrap_response. cbn [snd].
  rewrite Hmarker. reflexivity.
Qed.

(** ** The theorems at work on the scripted reader *)

Import Scripted.

Lemma direct_transmit_of_in_communicate_thru_witness :
  (length [0x00; 0xA4] <= 255)%nat
  /\ exists frame : list Z,
       outcome ((tunneled <- in_communicate_thru_command [0x00; 0xA4] ;;
                 direct_transmit_command tunneled) no_card) = Ret frame
       /\ frame = [0xFF; 0x00; 0x00; 0x00; 4; 0xD4; 0x42; 0x00; 0xA4]
       /\ skipn 5 frame = [0xD4; 0x42; 0x00; 0xA4]
       /\ nth 4 frame 0 = 4.
Proof.
  assert (Hlen : (length [0x00; 0xA4] <= 255)%nat) by (simpl; lia).
  split; [exact Hlen|].
  destruct (direct_transmit_of_in_communicate_thru [0x00; 0xA4] no_card Hlen)
    as (frame & Hout & Hframe & Hskip & Hnth).
  exists frame. split; [exact Hout|]. split; [exact Hframe|].
  split; [exact Hskip|]. rewrite Hnth, Hskip. reflexivity.
Defined.

Lemma transmit_raw_command_ok_iff_witness :
  let w := card [Ret ([0xD5; 0x43; 0x00; 0x12; 0x34], 0x90, 0x00)] in
  transmit tt (frame_of [0x30; 0x04]) w
    = (Ret ([0xD5; 0x43; 0x00; 0x12; 0x34], 0x90, 0x00), card [])
  /\ exists (result_bytes : list Z) (ok : bool),
       outcome (transmit_raw_command [0x30; 0x04] (Connection tt) w)
         = Ret (result_bytes, ok)
       /\ (result_bytes, ok)
          = unwrap_response [0xD5; 0x43; 0x00; 0x12; 0x34] 0x90 0x00
       /\ (ok = true
           <-> 0x90 = 0x90
               /\ firstn 3 [0xD5; 0x43; 0x00; 0x12; 0x34]
                  = [0xD5; 0x43; 0x00])
       /\ (0x90 <> 0x90
           \/ firstn 3 [0xD5; 0x43; 0x00; 0x12; 0x34] <> [0xD5; 0x43; 0x00] ->
           ok = false).
Proof.
  split; [reflexivity|].
  apply (transmit_raw_command_ok_iff [0x30; 0x04] tt
           (card [Ret ([0xD5; 0x43; 0x00; 0x12; 0x34], 0x90, 0x00)])
           (card [])).
  reflexivity.
Defined.

Lemma unwrap_response_strips_marker_witness :
  (length [0xD5; 0x43] < 3)%nat
  /\ unwrap_response [0xD5; 0x43] 0x90 0x00 = ([], false)
  /\ unwrap_response [0xD5; 0x43; 0x00; 0x12; 0x34] 0x90 0x00
     = ([0x12; 0x34], true).
Proof.
  split; [simpl; lia|]. split.
  - apply (proj1 (proj2 (unwrap_response_strips_marker (reader := reader)
                           [0xD5; 0x43] 0x90 0x00))).
    simpl; lia.
  - apply (proj1 (proj2 (proj2 (unwrap_response_strips_marker
                                  (reader := reader) [] 0 0)))
             [0x12; 0x34]).
Defined.

Lemma do_run_stops_at_first_failure_witness :
  let w := card [Ret ([0xD5; 0x43; 0x01], 0x90, 0x00);
                 Ret ([0xD5; 0x43; 0x00; 0xAA], 0x90, 0x00)] in
  let commands := [[0x00; 0xA4]; [0xFF; 0xB0]] in
  all_ok (Connection tt) [] w [] w
  /\ outcome (transmit_raw_command [0x00; 0xA4] (Connection tt) w)
     = Ret ([], false)
  /\ outcome (do_run_loop commands (Connection tt) w) = Ret tt
  /\ reports (trace (do_run_loop commands (Connection tt) w))
     = [FailedCommand [0x00; 0xA4]]
  /\ (length (transmits (trace (do_run_loop commands (Connection tt) w)))
      <= 1)%nat.
Proof.
  intros w commands.
  assert (Hpre : all_ok (Connection tt) [] w [] w) by constructor.
  assert (Hfail : outcome (transmit_raw_command [0x00; 0xA4] (Connection tt) w)
                  = Ret ([], false)) by reflexivity.
  split; [exact Hpre|]. split; [exact Hfail|].
  destruct (do_run_stops_at_first_failure (Connection tt) [] [[0xFF; 0xB0]]
              [0x00; 0xA4] [] w w [] Hpre Hfail)
    as (Hout & _ & _ & Hreports & _ & Htransmits).
  split; [exact Hout|]. split; [exact Hreports|]. exact Htransmits.
Defined.

(** The same run from the command line of the shell: the second command
    never reaches the reader. *)
Example run_00A4_FFB0_first_fails :
  let w := card [Ret ([0xD5; 0x43; 0x01], 0x90, 0x00);
                 Ret ([0xD5; 0x43; 0x00; 0xAA], 0x90, 0x00)] in
  outcome (do_run "00A4;FFB0" 15 w) = Ret tt
  /\ transmits (trace (do_run "00A4;FFB0" 15 w))
     = [[0xFF; 0x00; 0x00; 0x00; 4; 0xD4; 0x42; 0x00; 0xA4]]
  /\ printed (trace (do_run "00A4;FFB0" 15 w))
     = [TX [0x00; 0xA4]; Failed [0x00; 0xA4]]
  /\ world (do_run "00A4;FFB0" 15 w)
     = card [Ret ([0xD5; 0x43; 0x00; 0xAA], 0x90, 0x00)].
Proof. repeat split. Qed.

(** Two commands that both succeed. *)
Example run_two_commands_succeed :
  let w := card [Ret ([0xD5; 0x43; 0x00; 0x12], 0x90, 0x00);
                 Ret ([0xD5; 0x43; 0x00; 0xAA], 0x90, 0x00)] in
  printed (trace (do_run "00A4;FFB0" 15 w))
  = [TX [0x00; 0xA4]; RX_HEX; HexString [0x12]; RX_ASCII; ASCIIString [0x12];
     TX [0xFF; 0xB0]; RX_HEX; HexString [0xAA]; RX_ASCII; ASCIIString [0xAA]]
  /\ length (transmits (trace (do_run "00A4;FFB0" 15 w))) = 2%nat.
Proof. repeat split. Qed.

(** C5, against the claim: a payload of 256 bytes raises nothing.
    [direct_transmit_command] returns a frame whose length element is
    256, and [transmit_raw_command] on a command of 256 bytes calls
    [transmit] once and returns the reader's answer. *)
Lemma payload_of_256_bytes_is_wrapped_and_sent :
  let big := repeat 0xAA 256 in
  let w := card [Ret ([0xD5; 0x43; 0x00], 0x90, 0x00)] in
  outcome (direct_transmit_command big w)
    = Ret ([0xFF; 0x00; 0x00; 0x00; 256] ++ big)
  /\ outcome (transmit_raw_command big (Connection tt) w) = Ret ([], true)
  /\ transmits (trace (transmit_raw_command big (Connection tt) w))
     = [[0xFF; 0x00; 0x00; 0x00; 258; 0xD4; 0x42] ++ big].
Proof. repeat split. Qed.

Lemma direct_transmit_command_has_no_length_check_witness :
  let big := repeat 0xAA 256 in
  (255 < length big)%nat
  /\ exists frame : list Z,
       outcome (direct_transmit_command big no_card) = Ret frame
       /\ nth 4 frame 0 = 256
       /\ 255 < nth 4 frame 0
       /\ skipn 5 frame = big.
Proof.
  intros big.
  assert (Hlen : (255 < length big)%nat).
  { unfold big. rewrite repeat_length. lia. }
  split; [exact Hlen|].
  destruct (direct_transmit_command_has_no_length_check (reader := reader)
              big no_card Hlen)
    as (frame & Hout & _ & Hnth & Hbig & Hskip & _).
  exists frame. split; [exact Hout|]. split; [|split; [exact Hbig|exact Hskip]].
  rewrite Hnth. unfold big. rewrite repeat_length. reflexivity.
Defined.

(** C6, against the claim: with no card on the reader, [run 00A4;FFB0]
    raises nothing and reports one result, the failure of the first
    command; and [transmit_raw_command] returns for the missing
    connection the very pair it returns when [transmit] raises a
    [RuntimeError]. *)
Lemma absent_session_yields_one_report :
  outcome (do_run "00A4;FFB0" 15 no_card) = Ret tt
  /\ reports (trace (do_run "00A4;FFB0" 15 no_card))
     = [FailedCommand [0x00; 0xA4]]
  /\ outcome (transmit_raw_command [0x00; 0xA4] PyFalse no_card)
     = outcome (transmit_raw_command [0x00; 0xA4] (Connection tt)
                  (card [Raise RuntimeError])).
Proof. repeat split. Qed.

Lemma absent_session_fails_first_command_witness :
  waitforcard 15 no_card = (Raise CardRequestTimeoutException, no_card)
  /\ outcome (connect_to_chip 15 no_card) = Ret PyFalse
  /\ printed (trace (do_run_loop [[0x00; 0xA4]; [0xFF; 0xB0]] PyFalse no_card))
     = [TX [0x00; 0xA4]; ChipTimedOut; Failed [0x00; 0xA4]].
Proof.
  pose proof (absent_session_fails_first_command (reader := reader)
                [0x00; 0xA4] [[0xFF; 0xB0]] no_card)
    as (Hrun & _ & _ & _ & Hconnect).
  split; [reflexivity|].
  split; [apply (Hconnect 15 no_card); reflexivity|].
  rewrite Hrun. reflexivity.
Defined.

(** C7: a transport fault that the code does not catch.  The claim
    says that any transport-level fault raised while a command is
    submitted is caught, counts as [ok] false for that command and
    stops the iteration without ending the shell.  Here the chip is
    connected and [transmit] raises, on the first frame of
    [run 00A4;FFB0], an exception that is not a [RuntimeError] (as the
    card exceptions of the [smartcard] package are): the clause
    [except RuntimeError] lets it through, so it leaves
    [transmit_raw_command] and [do_run]; the command was echoed and its
    frame transmitted, but no failure line is printed and no result is
    reported. *)
Lemma card_exception_leaves_do_run :
  let w := card [Raise (Exception "CardConnectionException");
                 Ret ([0xD5; 0x43; 0x00; 0xAA], 0x90, 0x00)] in
  outcome (do_run "00A4;FFB0" 15 w)
    = Raise (Exception "CardConnectionException")
  /\ outcome (transmit_raw_command [0x00; 0xA4] (Connection tt) w)
     = Raise (Exception "CardConnectionException")
  /\ printed (trace (do_run "00A4;FFB0" 15 w)) = [TX [0x00; 0xA4]]
  /\ reports (trace (do_run "00A4;FFB0" 15 w)) = []
  /\ transmits (trace (do_run "00A4;FFB0" 15 w))
     = [frame_of [0x00; 0xA4]].
Proof. repeat split. Qed.

(** A response with a wrong marker keeps its bytes: what follows the
    first three elements is returned, with [ok] false. *)
Example negative_acknowledgement_keeps_its_bytes :
  outcome (transmit_raw_command [0x00; 0xA4] (Connection tt)
             (card [Ret ([0xD5; 0x43; 0x01; 0xAA], 0x90, 0x00)]))
  = Ret ([0xAA], false).
Proof. reflexivity. Qed.

Lemma RuntimeError_is_caught_and_stops_witness :
  let w := card [Ret ([0xD5; 0x43; 0x00; 0x12], 0x90, 0x00);
                 Raise RuntimeError;
                 Ret ([0xD5; 0x43; 0x00; 0xAA], 0x90, 0x00)] in
  let w1 := card [Raise RuntimeError;
                  Ret ([0xD5; 0x43; 0x00; 0xAA], 0x90, 0x00)] in
  let w2 := card [Ret ([0xD5; 0x43; 0x00; 0xAA], 0x90, 0x00)] in
  let commands := [[0x30; 0x04]; [0x00; 0xA4]; [0xFF; 0xB0]] in
  transmit tt (frame_of [0x00; 0xA4]) w1 = (Raise RuntimeError, w2)
  /\ fails (Raise RuntimeError)
  /\ outcome (transmit_raw_command [0x00; 0xA4] (Connection tt) w1)
     = Ret ([], false)
  /\ outcome (do_run_loop commands (Connection tt) w) = Ret tt
  /\ world (do_run_loop commands (Connection tt) w) = w2
  /\ printed (trace (do_run_loop commands (Connection tt) w))
     = [TX [0x30; 0x04]; RX_HEX; HexString [0x12]; RX_ASCII;
        ASCIIString [0x12]; TX [0x00; 0xA4]; Failed [0x00; 0xA4]]
  /\ transmits (trace (do_run_loop commands (Connection tt) w))
     = [frame_of [0x30; 0x04]; frame_of [0x00; 0xA4]].
Proof.
  intros w w1 w2 commands.
  assert (Hpre : all_ok (Connection tt) [[0x30; 0x04]] w
                   (Output (TX [0x30; 0x04])
                      :: trace (transmit_raw_command [0x30; 0x04]
                                  (Connection tt) w)
                      ++ [Output RX_HEX; Output (HexString [0x12]);
                          Output RX_ASCII; Output (ASCIIString [0x12])]
                      ++ [])
                   w1).
  { apply all_ok_cons; [reflexivity|]. apply all_ok_nil. }
  assert (Htx : transmit tt (frame_of [0x00; 0xA4]) w1
                = (Raise RuntimeError, w2)) by reflexivity.
  assert (Hfails : fails (Raise RuntimeError)) by reflexivity.
  split; [exact Htx|]. split; [exact Hfails|].
  destruct (RuntimeError_is_caught_and_stops tt [[0x30; 0x04]] [[0xFF; 0xB0]]
              [0x00; 0xA4] w w1 w2 _ (Raise RuntimeError) Hpre Htx)
    as [Hcaught _].
  destruct (Hcaught Hfails)
    as (_ & _ & Hraise & Hout & Hworld & Hprinted & Htransmits).
  split; [exact (proj1 (Hraise RuntimeError eq_refl))|].
  split; [exact Hout|]. split; [exact Hworld|].
  split; [exact Hprinted|exact Htransmits].
Defined.

Lemma wrap_functions_deterministic_witness :
  let w1 := no_card in
  let w2 := card [Ret ([0xD5; 0x43; 0x00], 0x90, 0x00)] in
  [0x00; 0xA4] = [0x00; 0xA4]
  /\ outcome (in_communicate_thru_command [0x00; 0xA4] w1)
     = outcome (in_communicate_thru_command [0x00; 0xA4] w2)
  /\ outcome (direct_transmit_command [0x00; 0xA4] w1)
     = outcome (direct_transmit_command [0x00; 0xA4] w2)
  /\ world (in_communicate_thru_command [0x00; 0xA4] w1) = w1
  /\ world (direct_transmit_command [0x00; 0xA4] w1) = w1.
Proof.
  intros w1 w2. split; [reflexivity|].
  destruct (wrap_functions_deterministic [0x00; 0xA4] [0x00; 0xA4] w1 w2
              eq_refl)
    as (H1 & H2 & _ & _ & H5 & H6 & _).
  split; [exact H1|]. split; [exact H2|]. split; [exact H5|exact H6].
Defined.

Lemma sw2_has_no_influence_witness :
  let w := card [Ret ([0xD5; 0x43; 0x00; 0x12], 0x90, 0x00)] in
  transmit (Smartcard := reader) tt (frame_of [0x30; 0x04]) w
    = (Ret ([0xD5; 0x43; 0x00; 0x12], 0x90, 0x00), card [])
  /\ transmit (Smartcard := with_sw2 0x63) tt (frame_of [0x30; 0x04]) w
     = (Ret ([0xD5; 0x43; 0x00; 0x12], 0x90, 0x63), card [])
  /\ outcome (transmit_raw_command (reader := reader) [0x30; 0x04]
                (Connection tt) w)
     = outcome (transmit_raw_command (reader := with_sw2 0x63) [0x30; 0x04]
                  (Connection tt) w)
  /\ outcome (transmit_raw_command (reader := with_sw2 0x63) [0x30; 0x04]
                (Connection tt) w)
     = Ret ([0x12], true).
Proof.
  intros w.
  assert (H1 : transmit (Smartcard := reader) tt (frame_of [0x30; 0x04]) w
               = (Ret ([0xD5; 0x43; 0x00; 0x12], 0x90, 0x00), card []))
    by reflexivity.
  assert (H2 : transmit (Smartcard := with_sw2 0x63) tt
                 (frame_of [0x30; 0x04]) w
               = (Ret ([0xD5; 0x43; 0x00; 0x12], 0x90, 0x63), card []))
    by reflexivity.
  split; [exact H1|]. split; [exact H2|].
  destruct (sw2_has_no_influence state unit reader (with_sw2 0x63)
              [0x30; 0x04] tt w (card []) (card [])
              [0xD5; 0x43; 0x00; 0x12] 0x90 0x00 0x63 H1 H2)
    as (_ & Hsame & Hout & _).
  split; [exact Hsame|]. rewrite <- Hsame. exact Hout.
Defined.

(** [run] with nothing after it does not give the empty command list:
    splitting the empty string leaves one empty command, which is
    wrapped and transmitted. *)
Example run_empty_string_sends_one_frame :
  let w := card [Ret ([0xD5; 0x43; 0x00], 0x90, 0x00)] in
  split ";" "" = [""%string]
  /\ transmits (trace (do_run "" 15 w))
     = [[0xFF; 0x00; 0x00; 0x00; 2; 0xD4; 0x42]].
Proof. repeat split. Qed.

(** ** More on the functions of the shell *)

Lemma split_length (sep : ascii) (s : string) :
  length (split sep s) = S (count sep s).
Proof.
  induction s as [|a s IH]; [reflexivity|].
  cbn [split count]. destruct (Ascii.eqb a sep).
  - cbn [length]. rewrite IH. reflexivity.
  - destruct (split sep s) as [|h t]; [discriminate|exact IH].
Qed.

Section More.
Context {W Conn : Type} {reader : Smartcard W Conn}.

(** [connect_to_chip], case by case on what the reader does. *)
Lemma connect_to_chip_cases (timeout : Z) (w : W) :
  connect_to_chip timeout w
  = let entered := [LogDebug (Entering "SmartCard.connect_to_chip");
                    WaitForCard timeout] in
    let failed (e : exn) (w' : W) (t : list event) :=
      if is_CardRequestTimeoutException e
      then Run (Ret PyFalse) w' (t ++ [LogDebug ConnectionTimedOut])
      else if is_Exception e
      then Run (Raise (Exception "Card connection failed unexpectedly."))
             w' t
      else Run (Raise e) w' t in
    match waitforcard timeout w with
    | (Ret c, w1) =>
        match connect c w1 with
        | (Ret _, w2) => Run (Ret (Connection c)) w2 (entered ++ [Connect])
        | (Raise e, w2) => failed e w2 (entered ++ [Connect])
        end
    | (Raise e, w1) => failed e w1 entered
    end.
Proof.
  cbv zeta.
  destruct (waitforcard timeout w) as [[c|e] w1] eqn:Hwait.
  - destruct (connect c w1) as [[[]|e] w2] eqn:Hconnect; [|destruct e];
      unfold connect_to_chip; run.
  - destruct e; unfold connect_to_chip; run.
Qed.

(** X1: [connect_to_chip] never returns [None], and the only exceptions
    it lets out are [Exception('Card connection failed unexpectedly.')]
    and exceptions outside [Exception]; in particular it never raises a
    [RuntimeError] or a [CardRequestTimeoutException]. *)
Theorem connect_to_chip_outcomes (timeout : Z) (w : W) :
  match outcome (connect_to_chip timeout w) with
  | Ret PyNone => False
  | Ret _ => True
  | Raise e =>
      e = Exception "Card connection failed unexpectedly."
      \/ e = BaseException
  end.
Proof.
  rewrite connect_to_chip_cases. cbv zeta.
  destruct (waitforcard timeout w) as [[c|e] w1].
  - destruct (connect c w1) as [[[]|e] w2]; [exact I|].
    destruct e; cbn; auto.
  - destruct e; cbn; auto.
Qed.

(** X2: [connect_to_chip] returns [False] exactly when a
    [CardRequestTimeoutException] was raised, by waiting for the card or
    by [connection.connect()]. *)
Theorem connect_to_chip_False_iff (timeout : Z) (w : W) :
  outcome (connect_to_chip timeout w) = Ret PyFalse
  <-> (exists w1 : W,
         waitforcard timeout w = (Raise CardRequestTimeoutException, w1))
      \/ (exists (c : Conn) (w1 w2 : W),
            waitforcard timeout w = (Ret c, w1)
            /\ connect c w1 = (Raise CardRequestTimeoutException, w2)).
Proof.
  rewrite connect_to_chip_cases. cbv zeta.
  destruct (waitforcard timeout w) as [[c|e] w1].
  - destruct (connect c w1) as [[[]|e] w2] eqn:Hconnect.
    + split; [discriminate|].
      intros [[w3 H]|(c' & w3 & w4 & H & H')]; [discriminate|].
      injection H as <- <-. rewrite Hconnect in H'. discriminate.
    + destruct e; cbn;
        (split;
         [ first [ discriminate
                 | intros _; right; exists c, w1, w2;
                   split; [reflexivity|exact Hconnect] ]
         | first [ intros _; reflexivity
                 | intros [[w3 H]|(c' & w3 & w4 & H & H')];
                   [discriminate|];
                   injection H as <- <-; rewrite Hconnect in H';
                   discriminate ] ]).
  - destruct e; cbn;
      (split;
       [ first [ discriminate | intros _; left; exists w1; reflexivity ]
       | first [ intros _; reflexivity
               | intros [[w3 H]|(c' & w3 & w4 & H & H')]; discriminate ] ]).
Qed.

(** X3: [connect_to_chip] returns a connection exactly when the card
    request gave that connection and [connection.connect()] returned:
    a connection that failed to connect is never handed out. *)
Theorem connect_to_chip_Connection_iff (timeout : Z) (w : W) (c : Conn) :
  outcome (connect_to_chip timeout w) = Ret (Connection c)
  <-> exists w1 w2 : W,
        waitforcard timeout w = (Ret c, w1)
        /\ connect c w1 = (Ret tt, w2).
Proof.
  rewrite connect_to_chip_cases. cbv zeta.
  destruct (waitforcard timeout w) as [[c0|e] w1].
  - destruct (connect c0 w1) as [[[]|e] w2] eqn:Hconnect.
    + cbn. split.
      * intros [= <-]. exists w1, w2. split; [reflexivity|exact Hconnect].
      * intros (w3 & w4 & [= <- <-] & _). reflexivity.
    + split.
      * destruct e; cbn; discriminate.
      * intros (w3 & w4 & [= <- <-] & H'). rewrite Hconnect in H'.
        discriminate.
  - split.
    + destruct e; cbn; discriminate.
    + intros (w3 & w4 & H & _). discriminate.
Qed.

(** [connect_to_chip] transmits nothing and prints nothing. *)
Lemma connect_to_chip_quiet (timeout : Z) (w : W) :
  transmits (trace (connect_to_chip timeout w)) = []
  /\ reports (trace (connect_to_chip timeout w)) = []
  /\ printed (trace (connect_to_chip timeout w)) = [].
Proof.
  rewrite connect_to_chip_cases. cbv zeta.
  destruct (waitforcard timeout w) as [[c|e] w1].
  - destruct (connect c w1) as [[[]|e] w2]; [repeat split|].
    destruct e; repeat split.
  - destruct e; repeat split.
Qed.

(** X4: called without a connection, [transmit_raw_command] connects
    itself with a timeout of 15 seconds and then does what it does when
    it is given the value [connect_to_chip] returned, a connection or
    [False]: same result, same world, and the events of the connection
    attempt put after its entry log record. *)
Theorem transmit_raw_command_None (command_bytes : list Z)
    (connection : connection_value Conn) (w w1 : W) (t1 : list event) :
  connect_to_chip 15 w = Run (Ret connection) w1 t1 ->
  connection <> PyNone ->
  let r := transmit_raw_command command_bytes connection w1 in
  transmit_raw_command command_bytes PyNone w
  = Run (outcome r) (world r)
      (LogDebug (Entering "ACR122.transmit_raw_command")
         :: t1 ++ tl (trace r)).
Proof.
  intros Hconnect Hnone r. unfold r.
  destruct connection as [| |c]; [contradiction| |].
  - rewrite transmit_raw_command_absent.
    unfold transmit_raw_command, except_RuntimeError. run_hyp.
  - rewrite transmit_raw_command_connected. cbv zeta.
    destruct (transmit c (frame_of command_bytes) w1)
      as [[[[data sw1] sw2]|e] w2] eqn:Htx.
    + unfold transmit_raw_command, except_RuntimeError. run_hyp.
    + destruct (is_RuntimeError e) eqn:He;
        unfold transmit_raw_command, except_RuntimeError; run_hyp.
Qed.

Lemma transmit_raw_command_None_raise (command_bytes : list Z) (w w1 : W)
    (t1 : list event) (e : exn) :
  connect_to_chip 15 w = Run (Raise e) w1 t1 ->
  is_RuntimeError e = false ->
  transmit_raw_command command_bytes PyNone w
  = Run (Raise e) w1
      (LogDebug (Entering "ACR122.transmit_raw_command") :: t1).
Proof.
  intros Hconnect He.
  unfold transmit_raw_command, except_RuntimeError. run_hyp.
Qed.

(** X5: when [transmit_raw_command] connects itself and waiting for
    the card raises an exception other than the timeout, a
    [RuntimeError] included, the [except RuntimeError] clause does not
    apply: the function raises
    [Exception('Card connection failed unexpectedly.')], logs no error
    and transmits nothing. *)
Theorem connection_failure_is_not_a_command_failure
    (command_bytes : list Z) (w w1 : W) (e : exn) :
  waitforcard 15 w = (Raise e, w1) ->
  is_Exception e = true ->
  is_CardRequestTimeoutException e = false ->
  transmit_raw_command command_bytes PyNone w
  = Run (Raise (Exception "Card connection failed unexpectedly.")) w1
      [LogDebug (Entering "ACR122.transmit_raw_command");
       LogDebug (Entering "SmartCard.connect_to_chip");
       WaitForCard 15].
Proof.
  intros Hwait Hexc Htimeout.
  assert (Hconnect : connect_to_chip 15 w
                     = Run (Raise (Exception
                                     "Card connection failed unexpectedly."))
                         w1
                         [LogDebug (Entering "SmartCard.connect_to_chip");
                          WaitForCard 15]).
  { rewrite connect_to_chip_cases. cbv zeta. rewrite Hwait, Htimeout, Hexc.
    reflexivity. }
  rewrite (transmit_raw_command_None_raise command_bytes w w1 _ _ Hconnect
             eq_refl).
  reflexivity.
Qed.

(** What one [transmit_raw_command] does with a connection object or
    [False]. *)
Lemma transmit_raw_command_given (command_bytes : list Z)
    (connection : connection_value Conn) (w : W) :
  connection <> PyNone ->
  let r := transmit_raw_command command_bytes connection w in
  (exists t, trace r
             = LogDebug (Entering "ACR122.transmit_raw_command") :: t)
  /\ (transmits (trace r) = []
      \/ transmits (trace r) = [frame_of command_bytes])
  /\ (forall data, outcome r = Ret (data, true) ->
                   transmits (trace r) = [frame_of command_bytes])
  /\ outcome r <> Raise RuntimeError.
Proof.
  intros Hnone r. unfold r.
  destruct connection as [| |c]; [contradiction| |].
  - rewrite transmit_raw_command_absent. cbn.
    split; [eexists; reflexivity|]. split; [left; reflexivity|].
    split; [discriminate|discriminate].
  - rewrite transmit_raw_command_connected. cbv zeta.
    destruct (transmit c (frame_of command_bytes) w)
      as [[[[data sw1] sw2]|e] w2].
    + cbn [outcome trace]. split; [eexists; reflexivity|].
      split; [right; reflexivity|]. split; [reflexivity|discriminate].
    + destruct (is_RuntimeError e) eqn:He; cbn [outcome trace].
      * split; [eexists; reflexivity|]. split; [right; reflexivity|].
        split; [discriminate|discriminate].
      * split; [eexists; reflexivity|]. split; [right; reflexivity|].
        split; [discriminate|]. intros [= ->]. discriminate He.
Qed.

(** X6: one call of [transmit_raw_command] transmits nothing or exactly
    the wrapped frame of its command, whatever connection it is given;
    when it returns [ok] true the frame was transmitted, and when the
    connection is [False] nothing is. *)
Theorem transmit_raw_command_sends (command_bytes : list Z)
    (connection : connection_value Conn) (w : W) :
  let r := transmit_raw_command command_bytes connection w in
  (transmits (trace r) = [] \/ transmits (trace r) = [frame_of command_bytes])
  /\ (forall data, outcome r = Ret (data, true) ->
                   transmits (trace r) = [frame_of command_bytes])
  /\ (connection = PyFalse -> transmits (trace r) = []).
Proof.
  intros r. unfold r.
  assert (Hfalse : connection = PyFalse ->
                   transmits (trace (transmit_raw_command command_bytes
                                       connection w)) = []).
  { intros ->. rewrite transmit_raw_command_absent. reflexivity. }
  destruct connection as [| |c].
  2,3: (match goal with
        | |- context [transmit_raw_command _ ?c _] =>
            assert (Hgiven : c <> PyNone) by discriminate;
            destruct (transmit_raw_command_given command_bytes c w Hgiven)
              as (_ & H1 & H2 & _)
        end;
        split; [exact H1|split; [exact H2|exact Hfalse]]).
  split; [|split; [|discriminate]].
  all: pose proof (connect_to_chip_outcomes 15 w) as Hout;
    pose proof (connect_to_chip_quiet 15 w) as (Hquiet & _);
    destruct (connect_to_chip 15 w) as [[connection|e] w1 t1] eqn:Hconnect;
    cbn [outcome trace] in Hout, Hquiet.
  - assert (Hnone : connection <> PyNone)
      by (destruct connection; [contradiction|discriminate|discriminate]).
    rewrite (transmit_raw_command_None _ _ _ _ _ Hconnect Hnone). cbv zeta.
    destruct (transmit_raw_command_given command_bytes connection w1 Hnone)
      as ((t & Ht) & H1 & _). rewrite Ht in *. cbn [trace tl transmits] in *.
    rewrite transmits_app, Hquiet. exact H1.
  - assert (He : is_RuntimeError e = false)
      by (destruct Hout as [-> | ->]; reflexivity).
    rewrite (transmit_raw_command_None_raise _ _ _ _ _ Hconnect He).
    left. cbn [trace transmits]. exact Hquiet.
  - assert (Hnone : connection <> PyNone)
      by (destruct connection; [contradiction|discriminate|discriminate]).
    rewrite (transmit_raw_command_None _ _ _ _ _ Hconnect Hnone). cbv zeta.
    destruct (transmit_raw_command_given command_bytes connection w1 Hnone)
      as ((t & Ht) & _ & H2 & _). rewrite Ht in *.
    cbn [outcome trace tl transmits] in *.
    intros data Hok. rewrite transmits_app, Hquiet. exact (H2 data Hok).
  - assert (He : is_RuntimeError e = false)
      by (destruct Hout as [-> | ->]; reflexivity).
    rewrite (transmit_raw_command_None_raise _ _ _ _ _ Hconnect He).
    cbn [outcome]. discriminate.
Qed.

(** X7: [transmit_raw_command] never raises a [RuntimeError], whatever
    the connection and whatever the reader does. *)
Theorem transmit_raw_command_never_raises_RuntimeError
    (command_bytes : list Z) (connection : connection_value Conn) (w : W) :
  outcome (transmit_raw_command command_bytes connection w)
  <> Raise RuntimeError.
Proof.
  destruct connection as [| |c].
  2,3: (match goal with
        | |- context [transmit_raw_command _ ?c _] =>
            assert (Hgiven : c <> PyNone) by discriminate;
            destruct (transmit_raw_command_given command_bytes c w Hgiven)
              as (_ & _ & _ & H)
        end; exact H).
  pose proof (connect_to_chip_outcomes 15 w) as Hout.
  destruct (connect_to_chip 15 w) as [[connection|e] w1 t1] eqn:Hconnect;
    cbn [outcome] in Hout.
  - assert (Hnone : connection <> PyNone)
      by (destruct connection; [contradiction|discriminate|discriminate]).
    rewrite (transmit_raw_command_None _ _ _ _ _ Hconnect Hnone). cbv zeta.
    cbn [outcome].
    destruct (transmit_raw_command_given command_bytes connection w1 Hnone)
      as (_ & _ & _ & H). exact H.
  - assert (He : is_RuntimeError e = false)
      by (destruct Hout as [-> | ->]; reflexivity).
    rewrite (transmit_raw_command_None_raise _ _ _ _ _ Hconnect He).
    cbn [outcome]. destruct Hout as [-> | ->]; discriminate.
Qed.

(** X8: the frames the loop of [do_run] transmits are the wrapped frames
    of the first [n] commands, in order, for some [n]: no command is
    skipped, repeated or sent out of order, and nothing else is sent. *)
Theorem do_run_loop_sends_a_prefix (commands : list (list Z))
    (connection : connection_value Conn) (w : W) :
  exists n : nat,
    (n <= length commands)%nat
    /\ transmits (trace (do_run_loop commands connection w))
       = map frame_of (firstn n commands).
Proof.
  revert w; induction commands as [|command_bytes commands IH]; intros w.
  - exists 0%nat. split; [apply Nat.le_refl|reflexivity].
  - rewrite do_run_loop_cons. cbv zeta.
    destruct (transmit_raw_command_sends command_bytes connection w)
      as (Hsent & Hok & _).
    destruct (outcome (transmit_raw_command command_bytes connection w))
      as [[data [|]]|e].
    + destruct (IH (world (transmit_raw_command command_bytes connection w)))
        as (n & Hn & Hrest).
      exists (S n). split; [cbn [length]; lia|].
      cbn [trace transmits]. rewrite !transmits_app, Hrest, (Hok data eq_refl).
      reflexivity.
    + cbn [trace transmits]. rewrite transmits_app, app_nil_r.
      destruct Hsent as [-> | ->];
        [exists 0%nat|exists 1%nat]; (split; [cbn [length]; lia|reflexivity]).
    + cbn [trace transmits].
      destruct Hsent as [-> | ->];
        [exists 0%nat|exists 1%nat]; (split; [cbn [length]; lia|reflexivity]).
Qed.

(** X9: what the loop of [do_run] reports is a run of successes for the
    first commands, followed by at most one failure, which is the last
    report and names the command that comes next in the list. *)
Theorem do_run_loop_reports (commands : list (list Z))
    (connection : connection_value Conn) (w : W) :
  exists datas : list (list Z),
    (length datas <= length commands)%nat
    /\ (reports (trace (do_run_loop commands connection w))
        = map Succeeded datas
        \/ exists command_bytes : list Z,
             nth_error commands (length datas) = Some command_bytes
             /\ reports (trace (do_run_loop commands connection w))
                = map Succeeded datas ++ [FailedCommand command_bytes]).
Proof.
  revert w; induction commands as [|command_bytes commands IH]; intros w.
  - exists []. split; [apply Nat.le_refl|left; reflexivity].
  - rewrite do_run_loop_cons. cbv zeta.
    destruct (transmit_raw_command_trace command_bytes connection w)
      as (Hquiet & _).
    destruct (outcome (transmit_raw_command command_bytes connection w))
      as [[data [|]]|e].
    + destruct (IH (world (transmit_raw_command command_bytes connection w)))
        as (datas & Hlen & Hrest).
      exists (data :: datas). split; [cbn [length]; lia|].
      cbn [trace reports]. rewrite reports_app, Hquiet. cbn [app reports].
      destruct Hrest as [-> | (cb & Hnth & ->)].
      * left. reflexivity.
      * right. exists cb. split; [exact Hnth|reflexivity].
    + exists []. split; [cbn [length]; lia|]. right. exists command_bytes.
      split; [reflexivity|].
      cbn [trace reports]. rewrite reports_app, Hquiet. reflexivity.
    + exists []. split; [cbn [length]; lia|]. left.
      cbn [trace reports]. exact Hquiet.
Qed.

(** X10: when every command comes back with [ok] true the loop of
    [do_run] returns normally after the last one, has transmitted the
    wrapped frame of every command in order, and has reported a success
    for each and no failure. *)
Theorem do_run_loop_all_succeed (commands : list (list Z))
    (connection : connection_value Conn) (w w' : W) (tr : list event) :
  all_ok connection commands w tr w' ->
  do_run_loop commands connection w = Run (Ret tt) w' tr
  /\ transmits tr = map frame_of commands
  /\ length (reports tr) = length commands
  /\ (forall command_bytes : list Z,
        ~ In (FailedCommand command_bytes) (reports tr)).
Proof.
  intros Hall.
  split.
  { rewrite <- (app_nil_r commands) at 1.
    rewrite (do_run_loop_all_ok _ _ _ _ _ _ Hall). cbn.
    rewrite app_nil_r. reflexivity. }
  induction Hall as [w|command_bytes commands w data tr w' Hok Hrest IH].
  - repeat split. intros cb [].
  - destruct IH as (IHt & IHr & IHf).
    destruct (transmit_raw_command_sends command_bytes connection w)
      as (_ & Hsent & _).
    destruct (transmit_raw_command_trace command_bytes connection w)
      as (Hquiet & _).
    cbn [transmits reports].
    rewrite transmits_app, reports_app, (Hsent data Hok), Hquiet.
    cbn [transmits reports app length map]. rewrite IHt, IHr.
    split; [reflexivity|]. split; [reflexivity|].
    intros cb [Hin|Hin]; [discriminate|]. exact (IHf cb Hin).
Qed.

(** The list comprehension of [do_run] touches nothing: it leaves the
    world alone and emits nothing. *)
Lemma toBytes_each_pure (strings : list string) (w : W) :
  toBytes_each strings w = Run (toBytes_list strings) w [].
Proof.
  induction strings as [|s strings IH].
  - reflexivity.
  - cbn [toBytes_each toBytes_list].
    destruct (toBytes s) as [b|e] eqn:Hs; [|run_hyp].
    destruct (toBytes_list strings) as [bs|e]; run_hyp.
Qed.

Lemma toBytes_list_raises (strings : list string) :
  (exists s e, In s strings /\ toBytes s = Raise e) ->
  exists (front : list string) (s : string) (back : list string) (e : exn),
    strings = front ++ s :: back
    /\ (forall p, In p front -> exists b, toBytes p = Ret b)
    /\ toBytes s = Raise e
    /\ toBytes_list strings = Raise e.
Proof.
  induction strings as [|s strings IH]; intros (s' & e & Hin & He).
  - destruct Hin.
  - cbn [toBytes_list]. destruct (toBytes s) as [b|e0] eqn:Hs.
    + destruct Hin as [<-|Hin]; [rewrite Hs in He; discriminate|].
      destruct IH as (front & s2 & back & e2 & -> & Hfront & Hs2 & ->);
        [exists s', e; split; assumption|].
      exists (s :: front), s2, back, e2. split; [reflexivity|].
      split; [|split; [exact Hs2|reflexivity]].
      intros p [<-|Hp]; [exists b; exact Hs|exact (Hfront p Hp)].
    + exists [], s, strings, e0. split; [reflexivity|].
      split; [intros p []|]. split; [exact Hs|reflexivity].
Qed.

Lemma toBytes_list_converts (strings : list string) :
  (forall s, In s strings -> exists b, toBytes s = Ret b) ->
  exists commands,
    toBytes_list strings = Ret commands
    /\ length commands = length strings.
Proof.
  induction strings as [|s strings IH]; intros Hall.
  - exists []. split; reflexivity.
  - destruct (Hall s (or_introl eq_refl)) as (b & Hb).
    destruct IH as (commands & Hlist & Hlen);
      [intros s' Hin; apply Hall; right; exact Hin|].
    exists (b :: commands). cbn [toBytes_list]. rewrite Hb, Hlist.
    split; [reflexivity|]. cbn [length]. rewrite Hlen. reflexivity.
Qed.

(** [do_run] once the chip is connected and the commands are converted:
    what is left is the loop. *)
Lemma do_run_connected (args : string) (timeout : Z) (w w1 : W)
    (t1 : list event) (connection : connection_value Conn)
    (commands : list (list Z)) :
  connect_to_chip timeout w = Run (Ret connection) w1 t1 ->
  toBytes_list (split ";" args) = Ret commands ->
  do_run args timeout w
  = let r := do_run_loop commands connection w1 in
    Run (outcome r) (world r)
      (LogDebug (Entering "NfcShell.do_run") :: t1 ++ trace r).
Proof.
  intros Hconnect Hlist. cbv zeta.
  pose proof (toBytes_each_pure (split ";" args) w1) as Hparse.
  rewrite Hlist in Hparse.
  destruct (do_run_loop commands connection w1) as [o w2 t2] eqn:Hloop.
  cbn [outcome world trace]. unfold do_run. run_hyp.
Qed.

(** X11: when one of the strings between the semicolons does not
    convert to bytes, [do_run] raises the exception of the first such
    string (every string in front of it converts) after the chip has
    been connected, and nothing is printed or transmitted, not even for
    the well formed commands in front of it. *)
Theorem do_run_malformed_command (args : string) (timeout : Z) (w w1 : W)
    (t1 : list event) (connection : connection_value Conn) :
  connect_to_chip timeout w = Run (Ret connection) w1 t1 ->
  (exists s e, In s (split ";" args) /\ toBytes s = Raise e) ->
  exists (front : list string) (s : string) (back : list string) (e : exn),
    split ";" args = front ++ s :: back
    /\ (forall p, In p front -> exists b, toBytes p = Ret b)
    /\ toBytes s = Raise e
    /\ do_run args timeout w
       = Run (Raise e) w1 (LogDebug (Entering "NfcShell.do_run") :: t1)
    /\ transmits (trace (do_run args timeout w)) = []
    /\ printed (trace (do_run args timeout w)) = [].
Proof.
  intros Hconnect Hbad.
  destruct (toBytes_list_raises _ Hbad)
    as (front & s & back & e & Hsplit & Hfront & Hs & Hlist).
  exists front, s, back, e. split; [exact Hsplit|]. split; [exact Hfront|].
  split; [exact Hs|].
  pose proof (toBytes_each_pure (split ";" args) w1) as Hparse.
  rewrite Hlist in Hparse.
  assert (Hrun : do_run args timeout w
                 = Run (Raise e) w1
                     (LogDebug (Entering "NfcShell.do_run") :: t1 ++ [])).
  { unfold do_run. run_hyp. }
  rewrite app_nil_r in Hrun.
  rewrite Hrun. split; [reflexivity|].
  destruct (connect_to_chip_quiet timeout w) as (Ht & _ & Hp).
  rewrite Hconnect in Ht, Hp. cbn [trace] in *.
  split; [exact Ht|exact Hp].
Qed.

(** X12: when waiting for the card raises an exception other than the
    timeout, [do_run] raises
    [Exception('Card connection failed unexpectedly.')] at once: no
    command is converted, printed or transmitted. *)
Theorem do_run_connection_failure (args : string) (timeout : Z) (w w1 : W)
    (e : exn) :
  waitforcard timeout w = (Raise e, w1) ->
  is_Exception e = true ->
  is_CardRequestTimeoutException e = false ->
  do_run args timeout w
  = Run (Raise (Exception "Card connection failed unexpectedly.")) w1
      [LogDebug (Entering "NfcShell.do_run");
       LogDebug (Entering "SmartCard.connect_to_chip");
       WaitForCard timeout].
Proof.
  intros Hwait Hexc Htimeout.
  assert (Hconnect : connect_to_chip timeout w
                     = Run (Raise (Exception
                                     "Card connection failed unexpectedly."))
                         w1
                         [LogDebug (Entering "SmartCard.connect_to_chip");
                          WaitForCard timeout]).
  { rewrite connect_to_chip_cases. cbv zeta. rewrite Hwait, Htimeout, Hexc.
    reflexivity. }
  unfold do_run. run_hyp.
Qed.

Lemma do_run_loop_first_sent (command_bytes : list Z)
    (commands : list (list Z)) (c : Conn) (w : W) :
  exists sent : list (list Z),
    transmits (trace (do_run_loop (command_bytes :: commands)
                        (Connection c) w))
    = frame_of command_bytes :: sent.
Proof.
  rewrite do_run_loop_cons, transmit_raw_command_connected. cbv zeta.
  destruct (transmit c (frame_of command_bytes) w)
    as [[[[data sw1] sw2]|e] w2].
  - cbn [outcome world trace].
    destruct (unwrap_response data sw1 sw2) as [result_bytes [|]];
      cbn [trace app transmits]; eexists; reflexivity.
  - destruct (is_RuntimeError e); cbn [outcome world trace app transmits];
      eexists; reflexivity.
Qed.

(** X13: with a chip connected and arguments that convert, [do_run]
    transmits at least one frame, the wrapped frame of what stands in
    front of the first semicolon, and at most one frame more than there
    are semicolons. *)
Theorem do_run_sends_at_least_once (args : string) (timeout : Z) (w w1 : W)
    (t1 : list event) (c : Conn) :
  connect_to_chip timeout w = Run (Ret (Connection c)) w1 t1 ->
  (forall s, In s (split ";" args) -> exists b, toBytes s = Ret b) ->
  let sent := transmits (trace (do_run args timeout w)) in
  (1 <= length sent <= S (count ";" args))%nat
  /\ exists (s : string) (rest : list string) (b : list Z),
       split ";" args = s :: rest
       /\ toBytes s = Ret b
       /\ hd_error sent = Some (frame_of b).
Proof.
  intros Hconnect Hall sent.
  destruct (toBytes_list_converts _ Hall) as (commands & Hlist & Hlen).
  assert (Hsent : sent
                  = transmits (trace (do_run_loop commands (Connection c) w1))).
  { unfold sent. rewrite (do_run_connected _ _ _ _ _ _ _ Hconnect Hlist).
    cbv zeta. cbn [trace transmits]. rewrite transmits_app.
    destruct (connect_to_chip_quiet timeout w) as (Ht & _).
    rewrite Hconnect in Ht. cbn [trace] in Ht. rewrite Ht. reflexivity. }
  rewrite split_length in Hlen.
  destruct (split ";" args) as [|s rest] eqn:Hsplit;
    [exfalso; exact (split_not_nil _ _ Hsplit)|].
  cbn [toBytes_list] in Hlist.
  destruct (toBytes s) as [b|e] eqn:Hs; [|discriminate].
  destruct (toBytes_list rest) as [bs|e]; [|discriminate].
  injection Hlist as <-.
  destruct (do_run_loop_first_sent b bs c w1) as (more & Hfirst).
  destruct (do_run_loop_sends_a_prefix (b :: bs) (Connection c) w1)
    as (n & Hn & Hprefix).
  rewrite Hsent. split.
  - rewrite Hfirst. cbn [length]. split; [lia|].
    rewrite Hfirst in Hprefix.
    assert (Hl : length (frame_of b :: more) = length (firstn n (b :: bs)))
      by (rewrite Hprefix, length_map; reflexivity).
    rewrite length_firstn in Hl. cbn [length] in Hl. lia.
  - exists s, rest, b. split; [reflexivity|]. split; [exact Hs|].
    rewrite Hfirst. reflexivity.
Qed.

End More.


Lemma split_segments (sep : ascii) (s : string) :
  Forall (fun segment => contains sep segment = false) (split sep s).
Proof.
  induction s as [|a s IH]; [repeat constructor|].
  cbn [split]. destruct (Ascii.eqb a sep) eqn:Ha.
  - constructor; [reflexivity|exact IH].
  - destruct (split sep s) as [|h t]; [repeat constructor; cbn; rewrite Ha;
                                       reflexivity|].
    inversion IH as [|? ? Hh Ht]; subst.
    constructor; [cbn [contains]; rewrite Ha, Hh; reflexivity|exact Ht].
Qed.

(** X14: splitting a string at a separator loses nothing: joining the
    pieces with the separator gives the string back, there is one piece
    more than there are separators, and no piece holds the separator. *)
Theorem join_split (sep : ascii) (s : string) :
  join sep (split sep s) = s
  /\ length (split sep s) = S (count sep s)
  /\ Forall (fun segment => contains sep segment = false) (split sep s).
Proof.
  split; [|split; [apply split_length|apply split_segments]].
  induction s as [|a s IH]; [reflexivity|].
  cbn [split]. destruct (Ascii.eqb a sep) eqn:Ha.
  - apply Ascii.eqb_eq in Ha. subst a.
    cbn [join]. destruct (split sep s) as [|h t] eqn:Hsplit;
      [exfalso; exact (split_not_nil _ _ Hsplit)|].
    rewrite IH. reflexivity.
  - destruct (split sep s) as [|h t] eqn:Hsplit;
      [exfalso; exact (split_not_nil _ _ Hsplit)|].
    cbn [join] in *. destruct t as [|h' t'].
    + rewrite IH. reflexivity.
    + cbn [String.append]. rewrite IH. reflexivity.
Qed.

(** X15: splitting the join of a non empty list of pieces that do not
    hold the separator gives the pieces back. *)
Theorem split_join (sep : ascii) (segments : list string) :
  segments <> [] ->
  Forall (fun segment => contains sep segment = false) segments ->
  split sep (join sep segments) = segments.
Proof.
  intros Hne Hall. induction Hall as [|h t Hh Ht IH]; [contradiction|].
  clear Hne.
  assert (Hhead : forall rest : string,
             split sep (h ++ String sep rest)
             = h :: split sep rest).
  { clear IH Ht. induction h as [|a h IHh]; intros rest.
    - cbn [String.append split]. rewrite Ascii.eqb_refl. reflexivity.
    - cbn [contains] in Hh. apply orb_false_iff in Hh as [Ha Hh'].
      cbn [String.append split]. rewrite Ha, (IHh Hh'). reflexivity. }
  assert (Hlast : split sep h = [h]).
  { clear IH Ht Hhead. induction h as [|a h IHh]; [reflexivity|].
    cbn [contains] in Hh. apply orb_false_iff in Hh as [Ha Hh'].
    cbn [split]. rewrite Ha, (IHh Hh'). reflexivity. }
  cbn [join]. destruct t as [|h' t'].
  - exact Hlast.
  - rewrite Hhead, IH; [reflexivity|discriminate].
Qed.

Section Codec.
Context {W : Type}.

(** X16: the two wrapping calls lose nothing: two commands with the same
    transport frame are the same command, the command is the frame
    without its first seven elements, and the frame is seven elements
    longer than the command. *)
Theorem wrapped_frame_gives_back_the_command (b1 b2 frame : list Z)
    (w1 w2 : W) :
  outcome ((tunneled <- in_communicate_thru_command b1 ;;
            direct_transmit_command tunneled) w1) = Ret frame ->
  outcome ((tunneled <- in_communicate_thru_command b2 ;;
            direct_transmit_command tunneled) w2) = Ret frame ->
  b1 = b2
  /\ skipn 7 frame = b1
  /\ length frame = (length b1 + 7)%nat.
Proof.
  rewrite !wrap_frame. cbn [outcome]. intros [= <-] Hsame.
  assert (H : frame_of b2 = frame_of b1) by congruence. clear Hsame.
  apply (f_equal (skipn 7)) in H. unfold frame_of in *.
  cbn [app skipn] in *.
  split; [symmetry; exact H|]. split; [reflexivity|].
  cbn [length]. lia.
Qed.

(** X17: for a command made of bytes, the transport frame is made of
    bytes exactly when the command has at most 253 of them: from 254 on
    the length element is above 255. *)
Theorem frame_is_bytes_up_to_253 (b frame : list Z) (w : W) :
  outcome ((tunneled <- in_communicate_thru_command b ;;
            direct_transmit_command tunneled) w) = Ret frame ->
  Forall is_byte b ->
  (Forall is_byte frame <-> (length b <= 253)%nat).
Proof.
  rewrite wrap_frame. cbn [outcome]. intros [= <-] Hb.
  unfold frame_of. cbn [app length].
  split.
  - intros H. apply Forall_forall with (x := Z.of_nat (S (S (length b))))
      in H.
    + unfold is_byte in H. lia.
    + do 4 right. left. reflexivity.
  - intros Hlen. repeat (constructor; [unfold is_byte; lia|]). exact Hb.
Qed.

(** X18: response unwrapping returns three elements fewer than the
    response holds (none for a response shorter than three), and when
    [ok] is true the response is the marker [0xD5, 0x43, 0x00] followed
    by the returned bytes, under [sw1 == 0x90]. *)
Theorem unwrap_response_round_trip (data : list Z) (sw1 sw2 : Z) :
  length (fst (unwrap_response data sw1 sw2)) = (length data - 3)%nat
  /\ (snd (unwrap_response data sw1 sw2) = true ->
      sw1 = 0x90
      /\ data = [0xD5; 0x43; 0x00] ++ fst (unwrap_response data sw1 sw2)).
Proof.
  unfold unwrap_response. cbn [fst snd]. split.
  - apply length_skipn.
  - intros Hok. apply andb_true_iff in Hok as [Hsw Hmarker].
    apply Z.eqb_eq in Hsw. apply list_eqb_eq in Hmarker.
    split; [exact Hsw|].
    rewrite <- Hmarker. symmetry. apply firstn_skipn.
Qed.

End Codec.

Import Logging.

(** X19: after [configure_logger(level)] a record of [_logger] that is
    not dropped (positive level, not below [level]) is written to one
    stream at most: to standard error from [WARNING] on, to standard
    output up to [INFO], and nowhere in between. *)
Theorem configure_logger_writes (level levelno : Z) :
  written (configure_logger level initial) levelno
  = if negb ((0 <? levelno) && (level <=? levelno)) then []
    else if WARNING <=? levelno then [stderr]
    else if levelno <=? INFO then [stdout]
    else [].
Proof.
  unfold configure_logger, written, initial, WARNING, INFO.
  destruct (level <=? 20) eqn:Hlevel;
    cbn [root_level handlers app flat_map hlevel hfilter hstream];
    destruct (0 <? levelno) eqn:Hpositive;
    destruct (level <=? levelno) eqn:Hroot; cbn [negb andb];
    try reflexivity;
    destruct (30 <=? levelno) eqn:Hwarning;
    destruct (levelno <=? 20) eqn:Hinfo;
    destruct (0 <=? levelno) eqn:Hzero;
    cbn [andb app]; try reflexivity; lia.
Qed.

(** X20: with the level [_main] computes from the number of [-v]
    flags, debug records reach standard output from two flags on, info
    records from one flag on, and warnings, errors and critical records
    always go to standard error, and only there. *)
Theorem verbosity_thresholds (verbose : Z) :
  0 <= verbose ->
  let cfg := configure_logger (log_level verbose) initial in
  written cfg DEBUG = (if 2 <=? verbose then [stdout] else [])
  /\ written cfg INFO = (if 1 <=? verbose then [stdout] else [])
  /\ written cfg WARNING = [stderr]
  /\ written cfg ERROR = [stderr]
  /\ written cfg CRITICAL = [stderr].
Proof.
  intros Hverbose cfg. unfold cfg. rewrite !configure_logger_writes.
  unfold log_level, DEBUG, INFO, WARNING, ERROR, CRITICAL.
  repeat split.
  - destruct (2 <=? verbose) eqn:H2;
      destruct (30 - 10 * verbose <=? 10) eqn:H; cbn; try reflexivity; lia.
  - destruct (1 <=? verbose) eqn:H1;
      destruct (30 - 10 * verbose <=? 20) eqn:H; cbn; try reflexivity; lia.
  - destruct (30 - 10 * verbose <=? 30) eqn:H; cbn; [reflexivity|lia].
  - destruct (30 - 10 * verbose <=? 40) eqn:H; cbn; [reflexivity|lia].
  - destruct (30 - 10 * verbose <=? 50) eqn:H; cbn; [reflexivity|lia].
Qed.

(** ** The further theorems at work on the scripted reader *)

Lemma transmit_raw_command_None_witness :
  let w := card [Ret ([0xD5; 0x43; 0x00; 0x12], 0x90, 0x00)] in
  connect_to_chip 15 w
  = Run (Ret (Connection tt)) w
      [LogDebug (Entering "SmartCard.connect_to_chip"); WaitForCard 15;
       Connect]
  /\ Connection tt <> PyNone
  /\ outcome (transmit_raw_command [0x30; 0x04] PyNone w)
     = Ret ([0x12], true)
  /\ transmits (trace (transmit_raw_command [0x30; 0x04] PyNone w))
     = [frame_of [0x30; 0x04]].
Proof.
  intros w.
  assert (Hconnect : connect_to_chip 15 w
                     = Run (Ret (Connection tt)) w
                         [LogDebug (Entering "SmartCard.connect_to_chip");
                          WaitForCard 15; Connect]) by reflexivity.
  assert (Hnone : Connection tt <> (PyNone : connection_value unit))
    by discriminate.
  split; [exact Hconnect|]. split; [exact Hnone|].
  rewrite (transmit_raw_command_None [0x30; 0x04] (Connection tt) w w _
             Hconnect Hnone).
  split; reflexivity.
Defined.

Lemma connection_failure_is_not_a_command_failure_witness :
  waitforcard (Smartcard := unplugged) 15 no_card
  = (Raise RuntimeError, no_card)
  /\ is_Exception RuntimeError = true
  /\ is_CardRequestTimeoutException RuntimeError = false
  /\ outcome (transmit_raw_command (reader := unplugged) [0x00; 0xA4] PyNone
                no_card)
     = Raise (Exception "Card connection failed unexpectedly.").
Proof.
  split; [reflexivity|]. split; [reflexivity|]. split; [reflexivity|].
  rewrite (connection_failure_is_not_a_command_failure (reader := unplugged)
             [0x00; 0xA4] no_card no_card RuntimeError eq_refl eq_refl
             eq_refl).
  reflexivity.
Defined.

Lemma transmit_raw_command_sends_witness :
  let w := card [Ret ([0xD5; 0x43; 0x00; 0x12], 0x90, 0x00)] in
  outcome (transmit_raw_command [0x30; 0x04] (Connection tt) w)
  = Ret ([0x12], true)
  /\ transmits (trace (transmit_raw_command [0x30; 0x04] (Connection tt) w))
     = [frame_of [0x30; 0x04]].
Proof.
  intros w.
  assert (Hok : outcome (transmit_raw_command [0x30; 0x04] (Connection tt) w)
                = Ret ([0x12], true)) by reflexivity.
  split; [exact Hok|].
  exact (proj1 (proj2 (transmit_raw_command_sends [0x30; 0x04]
                         (Connection tt) w)) [0x12] Hok).
Defined.

Lemma do_run_loop_all_succeed_witness :
  let w := card [Ret ([0xD5; 0x43; 0x00; 0x12], 0x90, 0x00)] in
  let tr := Output (TX [0x30; 0x04])
              :: trace (transmit_raw_command [0x30; 0x04] (Connection tt) w)
              ++ [Output RX_HEX; Output (HexString [0x12]);
                  Output RX_ASCII; Output (ASCIIString [0x12])]
              ++ [] in
  all_ok (Connection tt) [[0x30; 0x04]] w tr (card [])
  /\ do_run_loop [[0x30; 0x04]] (Connection tt) w = Run (Ret tt) (card []) tr
  /\ transmits tr = [frame_of [0x30; 0x04]]
  /\ length (reports tr) = 1%nat.
Proof.
  intros w tr.
  assert (Hall : all_ok (Connection tt) [[0x30; 0x04]] w tr (card [])).
  { apply all_ok_cons; [reflexivity|]. apply all_ok_nil. }
  split; [exact Hall|].
  destruct (do_run_loop_all_succeed _ _ _ _ _ Hall)
    as (Hrun & Hsent & Hreports & _).
  split; [exact Hrun|]. split; [exact Hsent|exact Hreports].
Defined.

Lemma do_run_malformed_command_witness :
  let w := card [Ret ([0xD5; 0x43; 0x00; 0x12], 0x90, 0x00)] in
  connect_to_chip 15 w
  = Run (Ret (Connection tt)) w
      [LogDebug (Entering "SmartCard.connect_to_chip"); WaitForCard 15;
       Connect]
  /\ (exists s e, In s (split ";" "00A4;ZZ;FFB0") /\ toBytes s = Raise e)
  /\ (exists e, outcome (do_run "00A4;ZZ;FFB0" 15 w) = Raise e)
  /\ transmits (trace (do_run "00A4;ZZ;FFB0" 15 w)) = []
  /\ printed (trace (do_run "00A4;ZZ;FFB0" 15 w)) = [].
Proof.
  intros w.
  assert (Hconnect : connect_to_chip 15 w
                     = Run (Ret (Connection tt)) w
                         [LogDebug (Entering "SmartCard.connect_to_chip");
                          WaitForCard 15; Connect]) by reflexivity.
  assert (Hbad : exists s e, In s (split ";" "00A4;ZZ;FFB0")
                             /\ toBytes s = Raise e).
  { exists "ZZ"%string, (Exception "TypeError").
    split; [right; left; reflexivity|reflexivity]. }
  split; [exact Hconnect|]. split; [exact Hbad|].
  destruct (do_run_malformed_command "00A4;ZZ;FFB0" 15 w w _ (Connection tt)
              Hconnect Hbad)
    as (front & s & back & e & _ & _ & _ & Hrun & Hsent & Hprinted).
  split; [exists e; rewrite Hrun; reflexivity|].
  split; [exact Hsent|exact Hprinted].
Defined.

Lemma do_run_connection_failure_witness :
  waitforcard (Smartcard := unplugged) 15 no_card
  = (Raise RuntimeError, no_card)
  /\ is_Exception RuntimeError = true
  /\ is_CardRequestTimeoutException RuntimeError = false
  /\ outcome (do_run (reader := unplugged) "00A4;FFB0" 15 no_card)
     = Raise (Exception "Card connection failed unexpectedly.").
Proof.
  split; [reflexivity|]. split; [reflexivity|]. split; [reflexivity|].
  rewrite (do_run_connection_failure (reader := unplugged) "00A4;FFB0" 15
             no_card no_card RuntimeError eq_refl eq_refl eq_refl).
  reflexivity.
Defined.

Lemma do_run_sends_at_least_once_witness :
  let w := card [Ret ([0xD5; 0x43; 0x01], 0x90, 0x00)] in
  connect_to_chip 15 w
  = Run (Ret (Connection tt)) w
      [LogDebug (Entering "SmartCard.connect_to_chip"); WaitForCard 15;
       Connect]
  /\ (forall s, In s (split ";" "00A4;FFB0") -> exists b, toBytes s = Ret b)
  /\ (1 <= length (transmits (trace (do_run "00A4;FFB0" 15 w))) <= 2)%nat.
Proof.
  intros w.
  assert (Hconnect : connect_to_chip 15 w
                     = Run (Ret (Connection tt)) w
                         [LogDebug (Entering "SmartCard.connect_to_chip");
                          WaitForCard 15; Connect]) by reflexivity.
  assert (Hall : forall s, In s (split ";" "00A4;FFB0") ->
                           exists b, toBytes s = Ret b).
  { intros s [<-|[<-|[]]]; eexists; reflexivity. }
  split; [exact Hconnect|]. split; [exact Hall|].
  exact (proj1 (do_run_sends_at_least_once "00A4;FFB0" 15 w w _ tt
                  Hconnect Hall)).
Defined.

Lemma split_join_witness :
  ["00A4"; "FFB0"]%string <> []
  /\ Forall (fun segment => contains ";" segment = false)
       ["00A4"; "FFB0"]%string
  /\ split ";" "00A4;FFB0" = ["00A4"; "FFB0"]%string.
Proof.
  assert (Hne : ["00A4"; "FFB0"]%string <> []) by discriminate.
  assert (Hall : Forall (fun segment => contains ";" segment = false)
                   ["00A4"; "FFB0"]%string)
    by (repeat constructor).
  split; [exact Hne|]. split; [exact Hall|].
  exact (split_join ";" ["00A4"; "FFB0"]%string Hne Hall).
Defined.

Lemma wrapped_frame_gives_back_the_command_witness :
  let frame := [0xFF; 0x00; 0x00; 0x00; 4; 0xD4; 0x42; 0x00; 0xA4] in
  outcome ((tunneled <- in_communicate_thru_command [0x00; 0xA4] ;;
            direct_transmit_command tunneled) no_card) = Ret frame
  /\ skipn 7 frame = [0x00; 0xA4]
  /\ length frame = 9%nat.
Proof.
  intros frame.
  assert (Hframe : outcome ((tunneled <-
                               in_communicate_thru_command [0x00; 0xA4] ;;
                             direct_transmit_command tunneled) no_card)
                   = Ret frame) by reflexivity.
  split; [exact Hframe|].
  exact (proj2 (wrapped_frame_gives_back_the_command [0x00; 0xA4]
                  [0x00; 0xA4] frame no_card no_card Hframe Hframe)).
Defined.

Lemma frame_is_bytes_up_to_253_witness :
  let frame := [0xFF; 0x00; 0x00; 0x00; 4; 0xD4; 0x42; 0x00; 0xA4] in
  outcome ((tunneled <- in_communicate_thru_command [0x00; 0xA4] ;;
            direct_transmit_command tunneled) no_card) = Ret frame
  /\ Forall is_byte [0x00; 0xA4]
  /\ Forall is_byte frame.
Proof.
  intros frame.
  assert (Hframe : outcome ((tunneled <-
                               in_communicate_thru_command [0x00; 0xA4] ;;
                             direct_transmit_command tunneled) no_card)
                   = Ret frame) by reflexivity.
  assert (Hb : Forall is_byte [0x00; 0xA4])
    by (repeat constructor; unfold is_byte; lia).
  split; [exact Hframe|]. split; [exact Hb|].
  apply (frame_is_bytes_up_to_253 [0x00; 0xA4] frame no_card Hframe Hb).
  simpl; lia.
Defined.

Lemma unwrap_response_round_trip_witness :
  snd (unwrap_response [0xD5; 0x43; 0x00; 0x12; 0x34] 0x90 0x00) = true
  /\ [0xD5; 0x43; 0x00; 0x12; 0x34]
     = [0xD5; 0x43; 0x00]
         ++ fst (unwrap_response [0xD5; 0x43; 0x00; 0x12; 0x34] 0x90 0x00).
Proof.
  assert (Hok : snd (unwrap_response [0xD5; 0x43; 0x00; 0x12; 0x34] 0x90 0x00)
                = true) by reflexivity.
  split; [exact Hok|].
  exact (proj2 (proj2 (unwrap_response_round_trip
                         [0xD5; 0x43; 0x00; 0x12; 0x34] 0x90 0x00) Hok)).
Defined.

Lemma verbosity_thresholds_witness :
  0 <= 2
  /\ written (configure_logger (log_level 2) initial) DEBUG = [stdout]
  /\ written (configure_logger (log_level 2) initial) ERROR = [stderr].
Proof.
  assert (H : 0 <= 2) by lia.
  split; [exact H|].
  destruct (verbosity_thresholds 2 H) as (Hdebug & _ & _ & Herror & _).
  split; [exact Hdebug|exact Herror].
Defined.
